(** * A runner of external commands: [regression_tests/cmd_runner.py]

    The module starts an external command, feeds it input, waits for it
    with an optional timeout, kills the whole process tree on timeout and
    decodes the captured output.  Everything it does is an interaction
    with the operating system, so the embedding is a state-and-exception
    monad over a [world] that holds the Python objects the code shares
    (the command list, the [Popen] handles, the signal table) and the
    trace of the OS calls made so far.  What the OS answers is an oracle
    that may depend on the whole trace; every theorem is for all oracles. *)

From Stdlib Require Import ZArith NArith Lia Ascii String DecimalString.
From stdpp Require Import base option list gmap.

Local Open Scope Z_scope.

(** ** Python values *)

(** A Python [str] is a sequence of code points, [bytes] a sequence of
    bytes. *)
Definition str := list N.
Definition bytes := list Byte.byte.

(** [u "abc"] is the [str] literal with these (ASCII) characters. *)
Definition u (s : string) : str := N_of_ascii <$> list_ascii_of_string s.

Definition CR : N := 13.
Definition LF : N := 10.
Definition ESC : N := 27.
(** U+FFFD, what [errors='replace'] puts for bytes that do not decode. *)
Definition REPLACEMENT : N := 65533.

(** [s.endswith(suffix)] *)
Definition endswith (s suffix : str) : bool :=
  bool_decide (drop (length s - length suffix)%nat s = suffix).

(** [list.insert(i, x)]: an index past the end appends. *)
Definition py_list_insert {A} (i : nat) (x : A) (l : list A) : list A :=
  take i l ++ x :: drop i l.

(** [str(n)] for an [int]. *)
Definition str_of_int (n : Z) : str := u (NilZero.string_of_int (Z.to_int n)).

(** What [run_cmd] takes as [input]: [bytes] or [str]. *)
Inductive pyinput :=
| InBytes (b : bytes)
| InStr (s : str).

(** What [run_cmd] returns as [output]. *)
Inductive pyobj :=
| PyNone
| PyBytes (b : bytes)
| PyStr (s : str).

(** A text codec, as [bytes.decode(enc, errors='replace')] and
    [str.encode(enc)] use it: decoding with replacement is total, strict
    encoding can fail.  No bytes decode to no text, with every codec. *)
Record codec := {
  codec_decode_replace : bytes → str;
  codec_encode : str → option bytes;
  codec_decode_empty : codec_decode_replace [] = []
}.

(** ** Exceptions and outcomes *)

Inductive spawn_error :=
| FileNotFound
| PermissionDenied
| MalformedArgv.

Inductive exn :=
| TimeoutExpired                 (* subprocess.TimeoutExpired *)
| SpawnError (e : spawn_error)   (* what Popen's constructor raises *)
| OSError (errno : Z)            (* a failed system call *)
| LookupError (enc : str)        (* unknown encoding *)
| UnicodeEncodeError
| AttributeError
| TypeError
| UnboundLocalError
| SystemExit (code : Z)          (* sys.exit(code) *)
| Terminated (signum : Z)        (* default action of a fatal signal *)
| DanglingRef.                   (* model only: an object never allocated *)

Inductive outcome (A : Type) :=
| Ok (a : A)
| Raise (e : exn)
| Blocks.                        (* the call never returns *)
Arguments Ok {A} a.
Arguments Raise {A} e.
Arguments Blocks {A}.

(** ** The operating system *)

Definition pid := Z.
Definition SIGTERM : Z := 15.
Definition ESRCH : Z := 3.

(** [subprocess.PIPE], [subprocess.DEVNULL], [subprocess.STDOUT] *)
Inductive stdio := PIPE | DEVNULL | STDOUT.

(** What [Popen.__init__] asks of the OS.  [pr_stdin] and friends are
    [None] when the keyword is absent (the child inherits the stream). *)
Record popen_req := {
  pr_args : list str;
  pr_stdin : option stdio;
  pr_stdout : option stdio;
  pr_stderr : option stdio;
  pr_setsid : bool;              (* preexec_fn=os.setsid *)
  pr_shell : bool
}.

(** What one [communicate] finds: the process has exited and its output
    pipe is closed (all of its output and its exit status), or the call is
    not done at the deadline, because the process, or a descendant that
    holds its output pipe, is still running. *)
Inductive comm_answer :=
| Exits (out : bytes) (status : Z)
| StillRunning.

Inductive event :=
| EvPopen (req : popen_req) (ans : spawn_error + pid)
| EvCommunicate (p : pid) (input : option bytes) (timeout : option Z)
                (ans : comm_answer)
| EvKillpg (pgid : pid) (sig : Z) (ans : option Z)
| EvCall (req : popen_req) (ans : spawn_error + Z).

(** The OS as an oracle: each answer may depend on everything that
    happened before. [os_killpg] answers [None] on success and [Some errno]
    on failure; [os_call] answers the exit status of the command run. *)
Record OS := {
  os_popen : list event → popen_req → spawn_error + pid;
  os_communicate : list event → pid → option bytes → option Z → comm_answer;
  os_killpg : list event → pid → Z → option Z;
  os_call : list event → popen_req → spawn_error + Z
}.

(** ** Python objects in the store *)

Definition loc := nat.           (* a list object *)
Definition hid := nat.           (* a Popen object *)

Inductive platform := Posix | Windows.

(** The only value ever assigned to the instance attribute [kill]. *)
Inductive callable := LambdaNone.

(** A [_LinuxProcess] or [_WindowsProcess] object. [p_kill_attr] is the
    instance attribute [kill], which shadows the method of the class once
    it is set. *)
Record popen := {
  p_class : platform;
  p_pid : pid;
  p_stdout : option stdio;
  p_returncode : option Z;
  p_kill_attr : option callable
}.

(** [p.returncode = status] and [p.kill = lambda: None] *)
Definition with_returncode (p : popen) (status : Z) : popen :=
  {| p_class := p_class p; p_pid := p_pid p; p_stdout := p_stdout p;
     p_returncode := Some status; p_kill_attr := p_kill_attr p |}.

Definition with_kill_attr (p : popen) (f : callable) : popen :=
  {| p_class := p_class p; p_pid := p_pid p; p_stdout := p_stdout p;
     p_returncode := p_returncode p; p_kill_attr := Some f |}.

(** A handler in the signal table: the closure [handler] of [start],
    which captures [p]. *)
Inductive sighandler :=
| StartHandler (p : hid).

Record world := {
  lists : gmap loc (list str);
  handles : gmap hid popen;
  next_hid : hid;
  sig_handlers : gmap Z sighandler;
  trace : list event
}.

Definition log (ev : event) (w : world) : world :=
  {| lists := lists w; handles := handles w; next_hid := next_hid w;
     sig_handlers := sig_handlers w; trace := trace w ++ [ev] |}.

Definition set_list (l : loc) (v : list str) (w : world) : world :=
  {| lists := <[l:=v]> (lists w); handles := handles w;
     next_hid := next_hid w; sig_handlers := sig_handlers w;
     trace := trace w |}.

Definition set_handle (h : hid) (p : popen) (w : world) : world :=
  {| lists := lists w; handles := <[h:=p]> (handles w);
     next_hid := next_hid w; sig_handlers := sig_handlers w;
     trace := trace w |}.

Definition alloc_handle (p : popen) (w : world) : hid * world :=
  (next_hid w,
   {| lists := lists w; handles := <[next_hid w:=p]> (handles w);
      next_hid := S (next_hid w); sig_handlers := sig_handlers w;
      trace := trace w |}).

Definition set_sighandler (signum : Z) (h : sighandler) (w : world) : world :=
  {| lists := lists w; handles := handles w; next_hid := next_hid w;
     sig_handlers := <[signum:=h]> (sig_handlers w); trace := trace w |}.

(** ** The monad *)

Definition M (A : Type) : Type := world → outcome A * world.

Definition ret {A} (a : A) : M A := λ w, (Ok a, w).
Definition raise {A} (e : exn) : M A := λ w, (Raise e, w).
Definition bind {A B} (m : M A) (k : A → M B) : M B :=
  λ w, match m w with
       | (Ok a, w') => k a w'
       | (Raise e, w') => (Raise e, w')
       | (Blocks, w') => (Blocks, w')
       end.

Notation "x <- m ;; k" := (bind m (λ x, k))
  (at level 100, m at next level, right associativity).
Notation "m ;;; k" := (bind m (λ _, k))
  (at level 100, right associativity).

(** [try: x = first; rest(x)  except TimeoutExpired: handler].  The local
    [x] is bound in the handler only if [first] completed. *)
Definition try_except_TimeoutExpired {A B}
    (first : M A) (rest : A → M B) (handler : option A → M B) : M B :=
  λ w, match first w with
       | (Ok a, w1) =>
           match rest a w1 with
           | (Raise TimeoutExpired, w2) => handler (Some a) w2
           | r => r
           end
       | (Raise TimeoutExpired, w1) => handler None w1
       | (Raise e, w1) => (Raise e, w1)
       | (Blocks, w1) => (Blocks, w1)
       end.

Definition read_list (l : loc) : M (list str) :=
  λ w, match lists w !! l with
       | Some v => (Ok v, w)
       | None => (Raise DanglingRef, w)
       end.

Definition get_handle (h : hid) : M popen :=
  λ w, match handles w !! h with
       | Some p => (Ok p, w)
       | None => (Raise DanglingRef, w)
       end.

(** ** [re.sub(r'\r\n?', '\n', output)] *)

(** The regular expression matches a carriage return and, greedily, the
    line feed after it when there is one; matches are found left to right
    and do not overlap. *)
Fixpoint re_sub_newlines (s : str) : str :=
  match s with
  | [] => []
  | c :: rest =>
      if N.eqb c CR then
        match rest with
        | c' :: rest' =>
            if N.eqb c' LF then LF :: re_sub_newlines rest'
            else LF :: re_sub_newlines rest
        | [] => [LF]
        end
      else c :: re_sub_newlines rest
  end.

(** The same normalisation said in two passes, as the documentation puts
    it: every [\r\n] becomes [\n], then every [\r] that is left becomes
    [\n]. *)
Fixpoint replace_crlf (s : str) : str :=
  match s with
  | [] => []
  | c :: rest =>
      match rest with
      | c' :: rest' =>
          if N.eqb c CR && N.eqb c' LF then LF :: replace_crlf rest'
          else c :: replace_crlf rest
      | [] => [c]
      end
  end.

Definition replace_cr (s : str) : str :=
  (λ c, if N.eqb c CR then LF else c) <$> s.

Definition normalize_line_endings (s : str) : str :=
  replace_cr (replace_crlf s).

(** What is neither [\r] nor [\n]. *)
Definition not_line_ending (c : N) : bool :=
  negb (N.eqb c CR) && negb (N.eqb c LF).

(** ** The program *)

(** What the module takes from outside: [on_windows()] of
    [regression_tests.utils.os], [sys.executable],
    [regression_tests.io.strip_shell_colors], Python's codec registry, and
    the operating system. *)
Class Host := {
  on_windows : bool;
  sys_executable : str;
  strip_shell_colors : str → str;
  codecs : str → option codec;
  os : OS
}.

Section CmdRunner.

Context {host : Host}.

(** Keyword arguments of the [Popen] subclasses, as [start] builds them.
    A field is [None] when the key is absent from the dict. *)
Record kwargs := {
  kw_args : option loc;
  kw_stdin : option stdio;
  kw_stdout : option stdio;
  kw_stderr : option stdio;
  kw_preexec_setsid : bool
}.

(** [subprocess.Popen.__init__] with the keyword arguments unpacked: read the argument list, ask the
    OS for a process, and on success allocate the object.  No [shell]
    keyword is ever passed, so the default [shell=False] applies. *)
Definition Popen_init (cls : platform) (kw : kwargs) : M hid :=
  match kw_args kw with
  | None => raise TypeError
  | Some l =>
      args <- read_list l;;
      λ w,
        let req := {| pr_args := args; pr_stdin := kw_stdin kw;
                      pr_stdout := kw_stdout kw; pr_stderr := kw_stderr kw;
                      pr_setsid := kw_preexec_setsid kw; pr_shell := false |} in
        let ans := os_popen os (trace w) req in
        let w' := log (EvPopen req ans) w in
        match ans with
        | inl e => (Raise (SpawnError e), w')
        | inr child =>
            let (h, w'') :=
              alloc_handle {| p_class := cls; p_pid := child;
                              p_stdout := kw_stdout kw;
                              p_returncode := None;
                              p_kill_attr := None |} w' in
            (Ok h, w'')
        end
  end.

(** [Popen.communicate(input, timeout)].  With a timeout, a call that is
    not done at the deadline raises [TimeoutExpired]; without one the call
    waits for as long as it takes.  When the output is complete and the
    process has exited, [returncode] is set and the captured output
    returned ([None] unless stdout is a pipe). *)
Definition communicate (self : hid) (input : option bytes)
    (timeout : option Z) : M (option bytes) :=
  p <- get_handle self;;
  λ w,
    let ans := os_communicate os (trace w) (p_pid p) input timeout in
    let w' := log (EvCommunicate (p_pid p) input timeout ans) w in
    match ans with
    | Exits out status =>
        (Ok (match p_stdout p with Some PIPE => Some out | _ => None end),
         set_handle self (with_returncode p status) w')
    | StillRunning =>
        match timeout with
        | Some _ => (Raise TimeoutExpired, w')
        | None => (Blocks, w')
        end
    end.

(** [p.returncode] *)
Definition returncode (self : hid) : M (option Z) :=
  p <- get_handle self;; ret (p_returncode p).

(** [os.killpg(pgid, sig)] *)
Definition os_killpg_call (pgid : pid) (sig : Z) : M unit :=
  λ w,
    let ans := os_killpg os (trace w) pgid sig in
    let w' := log (EvKillpg pgid sig ans) w in
    match ans with
    | None => (Ok tt, w')
    | Some errno => (Raise (OSError errno), w')
    end.

(** [subprocess.call(cmd, stdout=..., stderr=...)] *)
Definition subprocess_call (cmd : list str) (out err : stdio) : M Z :=
  λ w,
    let req := {| pr_args := cmd; pr_stdin := None; pr_stdout := Some out;
                  pr_stderr := Some err; pr_setsid := false;
                  pr_shell := false |} in
    let ans := os_call os (trace w) req in
    let w' := log (EvCall req ans) w in
    match ans with
    | inl e => (Raise (SpawnError e), w')
    | inr rc => (Ok rc, w')
    end.

(** [self.kill = lambda: None] *)
Definition set_kill_attr (self : hid) : M unit :=
  p <- get_handle self;;
  λ w, (Ok tt, set_handle self (with_kill_attr p LambdaNone) w).

(** [signal.signal(signum, handler)] *)
Definition signal_signal (signum : Z) (h : sighandler) : M unit :=
  λ w, (Ok tt, set_sighandler signum h w).

(** [sys.exit(code)] *)
Definition sys_exit {A} (code : Z) : M A := raise (SystemExit code).

(** *** [_LinuxProcess] *)

Definition _LinuxProcess_init (kw : kwargs) : M hid :=
  Popen_init Posix
    {| kw_args := kw_args kw; kw_stdin := kw_stdin kw;
       kw_stdout := kw_stdout kw; kw_stderr := kw_stderr kw;
       kw_preexec_setsid := true |}.

Definition _LinuxProcess_kill (self : hid) : M unit :=
  p <- get_handle self;;
  os_killpg_call (p_pid p) SIGTERM;;;
  set_kill_attr self.

(** *** [_WindowsProcess] *)

(** [kwargs['args']] is the caller's list object, so [insert] changes it
    in place. *)
Definition _WindowsProcess_init (kw : kwargs) : M hid :=
  match kw_args kw with
  | Some l =>
      args <- read_list l;;
      match args with
      | a0 :: _ =>
          if endswith a0 (u ".py")
          then λ w, (Ok tt, set_list l (py_list_insert 0 sys_executable args) w)
          else ret tt
      | [] => ret tt
      end
  | None => ret tt
  end;;;
  Popen_init Windows kw.

Definition taskkill_cmd (child : pid) : list str :=
  [u "taskkill"; u "/F"; u "/T"; u "/PID"; str_of_int child].

Definition _WindowsProcess_kill (self : hid) : M unit :=
  p <- get_handle self;;
  subprocess_call (taskkill_cmd (p_pid p)) DEVNULL DEVNULL;;;
  set_kill_attr self.

(** [p.kill()]: the instance attribute, when set, shadows the method. *)
Definition kill (self : hid) : M unit :=
  p <- get_handle self;;
  match p_kill_attr p with
  | Some LambdaNone => ret tt
  | None =>
      match p_class p with
      | Posix => _LinuxProcess_kill self
      | Windows => _WindowsProcess_kill self
      end
  end.

(** *** [CmdRunner] *)

(** The closure [handler(signum, frame)] defined in [start]. *)
Definition handler (p : hid) : M unit :=
  kill p;;; sys_exit 1.

Definition start (cmd : loc) (discard_output : bool) : M hid :=
  let kw := {| kw_args := Some cmd;
               kw_stdin := Some PIPE;
               kw_stdout := Some (if discard_output then DEVNULL else PIPE);
               kw_stderr := Some (if discard_output then DEVNULL else STDOUT);
               kw_preexec_setsid := false |} in
  p <- (if on_windows then _WindowsProcess_init kw
        else _LinuxProcess_init kw);;
  signal_signal SIGTERM (StartHandler p);;;
  ret p.

(** [raw.decode(enc, errors='replace')].  Empty bytes give the empty
    string at once, before the encoding is even looked up; any other bytes
    need the codec. *)
Definition bytes_decode_replace (enc : str) (raw : bytes) : exn + str :=
  match raw with
  | [] => inr []
  | _ :: _ =>
      match codecs enc with
      | None => inl (LookupError enc)
      | Some c => inr (codec_decode_replace c raw)
      end
  end.

(** The inner function [decode] of [run_cmd]. *)
Definition decode (output_encoding : option str) (strip : bool)
    (output : option bytes) : exn + pyobj :=
  match output_encoding with
  | Some enc =>
      match output with
      | None => inl AttributeError
      | Some raw =>
          match bytes_decode_replace enc raw with
          | inl e => inl e
          | inr output =>
              let output := re_sub_newlines output in
              if strip then inr (PyStr (strip_shell_colors output))
              else inr (PyStr output)
          end
      end
  | None =>
      inr (match output with Some raw => PyBytes raw | None => PyNone end)
  end.

(** [if not isinstance(input, bytes): input = input.encode(input_encoding)] *)
Definition encode_input (input : pyinput) (input_encoding : str)
    : exn + bytes :=
  match input with
  | InBytes b => inr b
  | InStr s =>
      match codecs input_encoding with
      | None => inl (LookupError input_encoding)
      | Some c =>
          match codec_encode c s with
          | Some b => inr b
          | None => inl UnicodeEncodeError
          end
      end
  end.

Definition lift {A} (r : exn + A) : M A :=
  match r with inl e => raise e | inr a => ret a end.

Definition result : Type := pyobj * option Z * bool.

Definition run_cmd (cmd : loc) (input : pyinput) (timeout : option Z)
    (input_encoding : str) (output_encoding : option str)
    (strip : bool) : M result :=
  input <- lift (encode_input input input_encoding);;
  try_except_TimeoutExpired
    (start cmd false)
    (λ p,
       output <- communicate p (Some input) timeout;;
       o <- lift (decode output_encoding strip output);;
       rc <- returncode p;;
       ret (o, rc, false))
    (λ p,
       match p with
       | None => raise UnboundLocalError
       | Some p =>
           kill p;;;
           output <- communicate p None None;;
           o <- lift (decode output_encoding strip output);;
           rc <- returncode p;;
           ret (o, rc, true)
       end).

(** Delivery of a signal to the host process: the registered handler
    runs; with none registered the default action ends the process. *)
Definition deliver_signal (signum : Z) : M unit :=
  λ w, match sig_handlers w !! signum with
       | Some (StartHandler p) => handler p w
       | None => (Raise (Terminated signum), w)
       end.

(** *** What the calls amount to

    The request [start] is shown to make, and the world it is shown to
    leave behind; the theorems below relate the code to them. *)

(** Does [_WindowsProcess] put the interpreter in front? *)
Definition needs_interpreter (argv : list str) : bool :=
  match argv with
  | a0 :: _ => endswith a0 (u ".py")
  | [] => false
  end.

Definition spawn_argv (argv : list str) : list str :=
  if on_windows && needs_interpreter argv then sys_executable :: argv
  else argv.

Definition start_request (argv : list str) (discard_output : bool)
    : popen_req :=
  {| pr_args := spawn_argv argv;
     pr_stdin := Some PIPE;
     pr_stdout := Some (if discard_output then DEVNULL else PIPE);
     pr_stderr := Some (if discard_output then DEVNULL else STDOUT);
     pr_setsid := negb on_windows;
     pr_shell := false |}.

Definition new_handle (discard_output : bool) (child : pid) : popen :=
  {| p_class := if on_windows then Windows else Posix;
     p_pid := child;
     p_stdout := Some (if discard_output then DEVNULL else PIPE);
     p_returncode := None;
     p_kill_attr := None |}.

(** The world after [Popen]'s constructor was reached with the list
    [argv] at [cmd] and the OS answered [ans]. *)
Definition spawned (cmd : loc) (argv : list str) (discard_output : bool)
    (ans : spawn_error + pid) (w : world) : world :=
  {| lists := if on_windows && needs_interpreter argv
              then <[cmd:=sys_executable :: argv]> (lists w) else lists w;
     handles := match ans with
                | inr child =>
                    <[next_hid w:=new_handle discard_output child]> (handles w)
                | inl _ => handles w
                end;
     next_hid := match ans with
                 | inr _ => S (next_hid w)
                 | inl _ => next_hid w
                 end;
     sig_handlers := match ans with
                     | inr _ => <[SIGTERM:=StartHandler (next_hid w)]>
                                  (sig_handlers w)
                     | inl _ => sig_handlers w
                     end;
     trace := trace w ++ [EvPopen (start_request argv discard_output) ans] |}.

(** The one OS call that the first [kill] of a process makes, with the
    answer it gets after the trace [tr]. *)
Definition kill_call (tr : list event) (child : pid) : event :=
  if on_windows then
    let req := {| pr_args := taskkill_cmd child; pr_stdin := None;
                  pr_stdout := Some DEVNULL; pr_stderr := Some DEVNULL;
                  pr_setsid := false; pr_shell := false |} in
    EvCall req (os_call os tr req)
  else EvKillpg child SIGTERM (os_killpg os tr child SIGTERM).

(** What a call that did not go through raises. *)
Definition call_failure (ev : event) : option exn :=
  match ev with
  | EvCall _ (inl e) => Some (SpawnError e)
  | EvKillpg _ _ (Some errno) => Some (OSError errno)
  | _ => None
  end.

(** [p.kill()], [n] times in a row. *)
Fixpoint kill_times (p : hid) (n : nat) : M unit :=
  match n with
  | O => ret tt
  | S n' => kill p;;; kill_times p n'
  end.

(** The OS calls that [kill] makes, as opposed to those of [start] and
    [communicate]. *)
Definition is_kill_call (ev : event) : bool :=
  match ev with
  | EvKillpg _ _ _ | EvCall _ _ => true
  | EvPopen _ _ | EvCommunicate _ _ _ _ => false
  end.

End CmdRunner.

(** ** A small host to run the program on

    Concrete codecs, a colour filter and an operating system, small enough
    to evaluate: they are the inputs of the examples below. *)

Module Demo.

Definition ascii_codec : codec :=
  {| codec_decode_replace :=
       fmap (M:=list) (λ b, let n := Byte.to_N b in
                            if (n <? 128)%N then n else REPLACEMENT);
     codec_encode :=
       mapM (M:=option) (λ c, if (c <? 128)%N then Byte.of_N c else None);
     codec_decode_empty := eq_refl |}.

Definition latin1_codec : codec :=
  {| codec_decode_replace := fmap (M:=list) Byte.to_N;
     codec_encode := mapM (M:=option) Byte.of_N;
     codec_decode_empty := eq_refl |}.

Definition demo_codecs (enc : str) : option codec :=
  if bool_decide (enc = u "ascii") then Some ascii_codec
  else if bool_decide (enc = u "latin-1") then Some latin1_codec
  else None.

(** A stand-in for [io.strip_shell_colors]: drops every sequence
    [ESC [ ... m]. *)
Fixpoint strip_sgr (in_seq : bool) (s : str) : str :=
  match s with
  | [] => []
  | c :: rest =>
      if in_seq then
        if N.eqb c 109 then strip_sgr false rest else strip_sgr true rest
      else if N.eqb c ESC then
        match rest with
        | c' :: rest' =>
            if N.eqb c' 91 then strip_sgr true rest'
            else c :: strip_sgr false rest
        | [] => [c]
        end
      else c :: strip_sgr false rest
  end.

Definition strip_colors : str → str := strip_sgr false.

Definition python_exe : str := u "C:\Python\python.exe".

(** [b "abc"]: the bytes literal. *)
Definition b (s : string) : bytes := list_byte_of_string s.

(** A toy kernel, read off the trace.  A process exists from its [Popen]
    until a [communicate] has collected its exit status; the lowest free
    identifier from 100 on is handed out, so identifiers are reused. *)
Fixpoint exists_in (child : pid) (tr : list event) (acc : option popen_req)
    : option popen_req :=
  match tr with
  | [] => acc
  | EvPopen req (inr c) :: tr' =>
      exists_in child tr' (if bool_decide (c = child) then Some req else acc)
  | EvCommunicate c _ _ (Exits _ _) :: tr' =>
      exists_in child tr' (if bool_decide (c = child) then None else acc)
  | _ :: tr' => exists_in child tr' acc
  end.

(** Was the process with this identifier signalled since it was started? *)
Fixpoint signalled (child : pid) (tr : list event) (acc : bool) : bool :=
  match tr with
  | [] => acc
  | EvPopen _ (inr c) :: tr' =>
      signalled child tr' (if bool_decide (c = child) then false else acc)
  | EvKillpg c _ None :: tr' =>
      signalled child tr' (if bool_decide (c = child) then true else acc)
  | EvCall req (inr _) :: tr' =>
      signalled child tr'
        (if bool_decide (pr_args req = taskkill_cmd child) then true else acc)
  | _ :: tr' => signalled child tr' acc
  end.

Definition free_pid (tr : list event) : pid :=
  match exists_in 100 tr None with
  | None => 100
  | Some _ =>
      match exists_in 101 tr None with
      | None => 101
      | Some _ => 102
      end
  end.

(** What the programs do: [sleep] never exits by itself and dies of the
    signal; [hello] prints two lines and exits with 0; [trap] ignores the
    signal; anything else copies its input to its output and exits with
    0.  [/no/such/file] cannot be started. *)
Definition kernel : OS :=
  {| os_popen tr req :=
       match pr_args req with
       | [] => inl MalformedArgv
       | a0 :: _ =>
           if bool_decide (a0 = u "/no/such/file") then inl FileNotFound
           else inr (free_pid tr)
       end;
     os_communicate tr child input timeout :=
       match exists_in child tr None with
       | None => Exits [] 0
       | Some req =>
           let prog := last (pr_args req) in
           if bool_decide (prog = Some (u "sleep")) then
             if signalled child tr false then Exits (b "zz") (-15)
             else StillRunning
           else if bool_decide (prog = Some (u "trap")) then StillRunning
           else if bool_decide (prog = Some (u "hello")) then
             Exits (b "hello" ++ [Byte.x0d; Byte.x0a] ++ b "world") 0
           else Exits (default [] input) 0
       end;
     os_killpg tr pgid sig :=
       match exists_in pgid tr None with
       | Some _ => None
       | None => Some ESRCH
       end;
     os_call tr req :=
       match pr_args req with
       | [] => inl MalformedArgv
       | _ => inr 0
       end |}.

(** The host before anything ran: one list object, at location 0. *)
Definition boot (cmd : list str) : world :=
  {| lists := {[ 0%nat := cmd ]}; handles := ∅; next_hid := 0%nat;
     sig_handlers := ∅; trace := [] |}.

Definition posix : Host :=
  {| on_windows := false; sys_executable := python_exe;
     strip_shell_colors := strip_colors; codecs := demo_codecs;
     os := kernel |}.

Definition windows : Host :=
  {| on_windows := true; sys_executable := python_exe;
     strip_shell_colors := strip_colors; codecs := demo_codecs;
     os := kernel |}.

(** A handle outliving its process: [hello] runs to its end and its
    status is collected; the handle is killed; the next command is
    started; the old handle is killed again. *)
Definition after_exit : world :=
  (communicate (host:=posix) 0%nat (Some []) None
     (start (host:=posix) 0%nat false (boot [u "hello"])).2).2.
Definition first_kill : outcome unit * world :=
  kill (host:=posix) 0%nat after_exit.
Definition restarted : outcome hid * world :=
  start (host:=posix) 0%nat false first_kill.2.
Definition second_kill : outcome unit * world :=
  kill (host:=posix) 0%nat restarted.2.

(** A process that was started and is asleep, on either host. *)
Definition sleeping : world :=
  (start (host:=posix) 0%nat false (boot [u "sleep"])).2.
Definition sleeping_win : world :=
  (start (host:=windows) 0%nat false (boot [u "sleep"])).2.

End Demo.

(** ** A process with a clock

    The small host above tells programs apart by their names.  Here a
    process is described by what it does in time, so that "has exited
    before the timeout" and "was written before the kill" can be said.
    Times are in seconds from the start of the process, which is also
    when [run_cmd] makes its first [communicate]. *)

Module Sim.

Record process := {
  exits_at : option Z;        (* when the process itself exits; None: never *)
  exit_status : Z;            (* its exit status when it does *)
  pipe_closed_at : option Z;  (* when the last holder of its output pipe
                                 lets go of it; None: never *)
  written_by : Z → bytes;     (* what is in the pipe by a given moment *)
  ignores_sigterm : bool      (* the process and its descendants do *)
}.

(** When a [communicate] is done if nothing interferes: the process has
    exited and nobody holds the pipe. *)
Definition done_at (pr : process) : option Z :=
  match exits_at pr, pipe_closed_at pr with
  | Some e, Some c => Some (Z.max e c)
  | _, _ => None
  end.

Definition undisturbed (pr : process) (timeout : option Z) : comm_answer :=
  match done_at pr with
  | Some d =>
      match timeout with
      | Some t =>
          if d <=? t then Exits (written_by pr d) (exit_status pr)
          else StillRunning
      | None => Exits (written_by pr d) (exit_status pr)
      end
  | None => StillRunning
  end.

(** The moment of the kill call that went through, if there was one: the
    deadline of the [communicate] that ran out before it. *)
Fixpoint killed_at (tr : list event) (deadline acc : option Z) : option Z :=
  match tr with
  | [] => acc
  | EvCommunicate _ _ (Some t) StillRunning :: tr' =>
      killed_at tr' (Some t) acc
  | EvKillpg _ _ None :: tr' => killed_at tr' deadline deadline
  | _ :: tr' => killed_at tr' deadline acc
  end.

(** The OS with this one process in it.  SIGTERM ends every member of the
    group that does not ignore it, at once; the status is then that of the
    process if it had exited before, and that of the signal otherwise. *)
Definition os_of (pr : process) : OS :=
  {| os_popen _ _ := inr 100;
     os_communicate tr _ _ timeout :=
       match killed_at tr None None with
       | Some k =>
           if ignores_sigterm pr then undisturbed pr timeout
           else
             Exits (written_by pr k)
               (match exits_at pr with
                | Some e => if e <=? k then exit_status pr else - SIGTERM
                | None => - SIGTERM
                end)
       | None => undisturbed pr timeout
       end;
     os_killpg _ _ _ := None;
     os_call _ _ := inr 0 |}.

Definition host_of (pr : process) : Host :=
  {| on_windows := false; sys_executable := Demo.python_exe;
     strip_shell_colors := Demo.strip_colors; codecs := Demo.demo_codecs;
     os := os_of pr |}.

(** [sh -c 'echo hi; sleep 3 & exit 7']: the shell exits at once with
    status 7; the [sleep] it leaves behind holds the pipe for three
    seconds. *)
Definition orphan : process :=
  {| exits_at := Some 0; exit_status := 7; pipe_closed_at := Some 3;
     written_by _ := Demo.b "hi" ++ [Byte.x0a];
     ignores_sigterm := false |}.


End Sim.

(** * Properties *)

(** ** Line endings *)

Lemma re_sub_newlines_cons2 (c c' : N) (rest : str) :
  re_sub_newlines (c :: c' :: rest) =
  if N.eqb c CR then
    if N.eqb c' LF then LF :: re_sub_newlines rest
    else LF :: re_sub_newlines (c' :: rest)
  else c :: re_sub_newlines (c' :: rest).
Proof. reflexivity. Qed.

Lemma replace_crlf_cons2 (c c' : N) (rest : str) :
  replace_crlf (c :: c' :: rest) =
  if N.eqb c CR && N.eqb c' LF then LF :: replace_crlf rest
  else c :: replace_crlf (c' :: rest).
Proof. reflexivity. Qed.

Lemma re_sub_newlines_two_pass (s : str) :
  re_sub_newlines s = normalize_line_endings s.
Proof.
  unfold normalize_line_endings, replace_cr.
  remember (length s) as n eqn:Hn.
  revert s Hn. induction (lt_wf n) as [n _ IH]. intros s ->.
  destruct s as [|c [|c' rest]]; [reflexivity | |].
  - cbn. destruct (N.eqb c CR); reflexivity.
  - rewrite re_sub_newlines_cons2, replace_crlf_cons2.
    destruct (N.eqb c CR) eqn:Hc; cbn [andb].
    + destruct (N.eqb c' LF) eqn:Hc'.
      * rewrite fmap_cons. change (N.eqb LF CR) with false. cbn iota.
        f_equal. apply (IH (length rest)); [cbn; lia | reflexivity].
      * rewrite fmap_cons, Hc. f_equal.
        apply (IH (length (c' :: rest))); [cbn; lia | reflexivity].
    + rewrite fmap_cons, Hc. f_equal.
      apply (IH (length (c' :: rest))); [cbn; lia | reflexivity].
Qed.

Lemma re_sub_newlines_no_CR (s : str) : CR ∉ re_sub_newlines s.
Proof.
  remember (length s) as n eqn:Hn.
  revert s Hn. induction (lt_wf n) as [n _ IH]. intros s ->.
  destruct s as [|c rest]; [apply not_elem_of_nil|].
  cbn [re_sub_newlines].
  destruct (N.eqb c CR) eqn:Hc.
  - destruct rest as [|c' rest'].
    + intros H%list_elem_of_singleton. discriminate.
    + destruct (N.eqb c' LF); apply not_elem_of_cons; split;
        try discriminate;
        (eapply IH; [|reflexivity]; cbn; lia).
  - apply not_elem_of_cons. split.
    + intros <-. rewrite N.eqb_refl in Hc. discriminate.
    + eapply IH; [|reflexivity]. cbn; lia.
Qed.

Lemma re_sub_newlines_id (s : str) : CR ∉ s → re_sub_newlines s = s.
Proof.
  induction s as [|c rest IH]; [reflexivity|].
  intros [Hc Hrest]%not_elem_of_cons. cbn [re_sub_newlines].
  destruct (N.eqb_spec c CR) as [->|_]; [congruence|].
  f_equal. auto.
Qed.

(** ** Running the program *)

Section Properties.

Context {host : Host}.

(** [start], in one equation: one request to the OS, and on success a
    new handle and a new SIGTERM handler. *)
Lemma start_eq (w : world) (cmd : loc) (discard : bool) (argv : list str) :
  lists w !! cmd = Some argv →
  start cmd discard w =
  let ans := os_popen os (trace w) (start_request argv discard) in
  (match ans with
   | inl e => Raise (SpawnError e)
   | inr _ => Ok (next_hid w)
   end,
   spawned cmd argv discard ans w).
Proof.
  intros Hcmd.
  unfold spawned, new_handle, start_request, spawn_argv, needs_interpreter,
    start, _WindowsProcess_init, _LinuxProcess_init, Popen_init,
    signal_signal, read_list, bind, ret.
  cbn [kw_args kw_stdin kw_stdout kw_stderr kw_preexec_setsid].
  destruct on_windows; cbn [andb negb].
  - rewrite Hcmd. destruct argv as [|a0 argv'].
    + rewrite Hcmd.
      destruct (os_popen _ _ _); reflexivity.
    + destruct (endswith a0 (u ".py")).
      * cbn [set_list lists trace]. rewrite lookup_insert_eq.
        cbn [py_list_insert take drop app].
        destruct (os_popen _ _ _); reflexivity.
      * rewrite Hcmd. destruct (os_popen _ _ _); reflexivity.
  - rewrite Hcmd. destruct (os_popen _ _ _); reflexivity.
Qed.

(** The primitives, one equation each. *)

Lemma communicate_eq (w : world) (p : hid) (h : popen)
    (input : option bytes) (timeout : option Z) :
  handles w !! p = Some h →
  communicate p input timeout w =
  let ans := os_communicate os (trace w) (p_pid h) input timeout in
  let w' := log (EvCommunicate (p_pid h) input timeout ans) w in
  match ans with
  | Exits out status =>
      (Ok (match p_stdout h with Some PIPE => Some out | _ => None end),
       set_handle p (with_returncode h status) w')
  | StillRunning =>
      (match timeout with Some _ => Raise TimeoutExpired | None => Blocks end,
       w')
  end.
Proof.
  intros Hp. unfold communicate, get_handle, bind. rewrite Hp. cbv zeta.
  destruct (os_communicate _ _ _ _ _); [reflexivity|].
  destruct timeout; reflexivity.
Qed.

Lemma returncode_eq (w : world) (p : hid) (h : popen) :
  handles w !! p = Some h → returncode p w = (Ok (p_returncode h), w).
Proof. intros Hp. unfold returncode, get_handle, bind. by rewrite Hp. Qed.

Lemma kill_noop (w : world) (p : hid) (h : popen) :
  handles w !! p = Some h → p_kill_attr h = Some LambdaNone →
  kill p w = (Ok tt, w).
Proof.
  intros Hp Hk. unfold kill, get_handle, bind. rewrite Hp, Hk. reflexivity.
Qed.

(** The first [kill] of a handle that [start] made: one call to the OS,
    and the method is replaced only if the call went through. *)
Lemma kill_first_eq (w : world) (p : hid) (h : popen) :
  handles w !! p = Some h → p_kill_attr h = None →
  p_class h = (if on_windows then Windows else Posix) →
  kill p w =
  let ev := kill_call (trace w) (p_pid h) in
  match call_failure ev with
  | Some e => (Raise e, log ev w)
  | None => (Ok tt, set_handle p (with_kill_attr h LambdaNone) (log ev w))
  end.
Proof.
  intros Hp Hk Hc.
  unfold kill, _LinuxProcess_kill, _WindowsProcess_kill, os_killpg_call,
    subprocess_call, set_kill_attr, kill_call, get_handle, bind.
  rewrite Hp, Hk, Hc. destruct on_windows; rewrite Hp; cbv zeta.
  - destruct (os_call _ _ _); [reflexivity|].
    cbn [call_failure log handles]. rewrite Hp. reflexivity.
  - destruct (os_killpg _ _ _ _); [reflexivity|].
    cbn [call_failure log handles]. rewrite Hp. reflexivity.
Qed.

Lemma spawned_handle (w : world) (cmd : loc) (argv : list str)
    (discard : bool) (child : pid) :
  handles (spawned cmd argv discard (inr child) w) !! next_hid w
  = Some (new_handle discard child).
Proof. cbn. apply lookup_insert_eq. Qed.

Lemma set_handle_lookup (w : world) (p : hid) (h : popen) :
  handles (set_handle p h w) !! p = Some h.
Proof. cbn. apply lookup_insert_eq. Qed.

Lemma log_handles (ev : event) (w : world) : handles (log ev w) = handles w.
Proof. reflexivity. Qed.

Lemma decode_error (oenc : option str) (strip : bool) (output : option bytes)
    (e : exn) :
  decode oenc strip output = inl e → e ≠ TimeoutExpired.
Proof.
  unfold decode, bytes_decode_replace.
  destruct oenc as [enc|]; [|discriminate].
  destruct output as [[|b raw]|]; [destruct strip; discriminate | |].
  - destruct (codecs enc); [destruct strip; discriminate|].
    intros [= <-]. discriminate.
  - intros [= <-]. discriminate.
Qed.

(** [run_cmd], in one equation over what the OS answers. *)
Lemma run_cmd_eq (w : world) (cmd : loc) (argv : list str) (input : pyinput)
    (timeout : option Z) (ienc : str) (oenc : option str) (strip : bool) :
  lists w !! cmd = Some argv →
  run_cmd cmd input timeout ienc oenc strip w =
  match encode_input input ienc with
  | inl e => (Raise e, w)
  | inr data =>
      let ans := os_popen os (trace w) (start_request argv false) in
      let w1 := spawned cmd argv false ans w in
      match ans with
      | inl e => (Raise (SpawnError e), w1)
      | inr child =>
          let p := next_hid w in
          let h := new_handle false child in
          let a1 := os_communicate os (trace w1) child (Some data) timeout in
          let w2 := log (EvCommunicate child (Some data) timeout a1) w1 in
          match a1 with
          | Exits out status =>
              (match decode oenc strip (Some out) with
               | inl e => Raise e
               | inr o => Ok (o, Some status, false)
               end,
               set_handle p (with_returncode h status) w2)
          | StillRunning =>
              match timeout with
              | None => (Blocks, w2)
              | Some _ =>
                  let ev := kill_call (trace w2) child in
                  match call_failure ev with
                  | Some e => (Raise e, log ev w2)
                  | None =>
                    let h' := with_kill_attr h LambdaNone in
                    let w3 := set_handle p h' (log ev w2) in
                    let a2 := os_communicate os (trace w3) child None None in
                    let w4 := log (EvCommunicate child None None a2) w3 in
                    match a2 with
                    | Exits out status =>
                        (match decode oenc strip (Some out) with
                         | inl e => Raise e
                         | inr o => Ok (o, Some status, true)
                         end,
                         set_handle p (with_returncode h' status) w4)
                    | StillRunning => (Blocks, w4)
                    end
                  end
              end
          end
      end
  end.
Proof.
  intros Hcmd. unfold run_cmd.
  destruct (encode_input input ienc) as [e|data]; [reflexivity|].
  unfold lift at 1, bind at 1, ret at 1, try_except_TimeoutExpired.
  rewrite (start_eq _ _ _ _ Hcmd). cbv zeta.
  destruct (os_popen os (trace w) (start_request argv false))
    as [e|child]; [reflexivity|].
  set (w1 := spawned cmd argv false (inr child) w).
  assert (Hh : handles w1 !! next_hid w = Some (new_handle false child))
    by apply spawned_handle.
  unfold bind at 1. rewrite (communicate_eq _ _ _ _ _ Hh). cbv zeta.
  change (p_pid (new_handle false child)) with child.
  destruct (os_communicate os (trace w1) child (Some data) timeout)
    as [out status|].
  - change (p_stdout (new_handle false child)) with (Some PIPE).
    unfold bind at 1.
    destruct (decode oenc strip (Some out)) as [e|o] eqn:Hdec.
    + cbn [lift raise]. pose proof (decode_error _ _ _ _ Hdec).
      destruct e; congruence.
    + cbn [lift ret]. unfold bind.
      rewrite (returncode_eq _ _ _ (set_handle_lookup _ _ _)).
      reflexivity.
  - destruct timeout as [t|]; [|reflexivity].
    set (w2 := log _ w1).
    assert (Hh2 : handles w2 !! next_hid w = Some (new_handle false child))
      by exact Hh.
    unfold bind at 1.
    rewrite (kill_first_eq _ _ _ Hh2 eq_refl eq_refl). cbv zeta.
    change (p_pid (new_handle false child)) with child.
    destruct (call_failure (kill_call (trace w2) child)) as [e|];
      [reflexivity|].
    set (h' := with_kill_attr _ _). set (w3 := set_handle _ h' _).
    assert (Hh3 : handles w3 !! next_hid w = Some h')
      by apply set_handle_lookup.
    unfold bind at 1. rewrite (communicate_eq _ _ _ _ _ Hh3).
    cbv zeta. change (p_pid h') with child.
    destruct (os_communicate os (trace w3) child None None)
      as [out status|]; [|reflexivity].
    change (p_stdout h') with (Some PIPE). unfold bind at 1.
    destruct (decode oenc strip (Some out)) as [e|o]; [reflexivity|].
    cbn [lift ret]. unfold bind.
    rewrite (returncode_eq _ _ _ (set_handle_lookup _ _ _)).
    reflexivity.
Qed.

Lemma start_dangling (w : world) (cmd : loc) (discard : bool) :
  lists w !! cmd = None → start cmd discard w = (Raise DanglingRef, w).
Proof.
  intros Hcmd.
  unfold start, _WindowsProcess_init, _LinuxProcess_init, Popen_init,
    read_list, bind.
  cbn [kw_args]. destruct on_windows; rewrite Hcmd; reflexivity.
Qed.

Lemma run_cmd_dangling (w : world) (cmd : loc) (input : pyinput)
    (timeout : option Z) (ienc : str) (oenc : option str) (strip : bool) :
  lists w !! cmd = None →
  ∃ e, run_cmd cmd input timeout ienc oenc strip w = (Raise e, w)
       ∧ e ≠ TimeoutExpired.
Proof.
  intros Hcmd. unfold run_cmd, encode_input.
  destruct input as [data|s].
  - unfold lift, bind at 1, ret at 1, try_except_TimeoutExpired.
    rewrite (start_dangling _ _ _ Hcmd). eexists; split; [reflexivity|done].
  - destruct (codecs ienc) as [c|]; [destruct (codec_encode c s)|].
    + unfold lift, bind at 1, ret at 1, try_except_TimeoutExpired.
      rewrite (start_dangling _ _ _ Hcmd). eexists; split; [reflexivity|done].
    + eexists; split; [reflexivity|done].
    + eexists; split; [reflexivity|done].
Qed.




(** Whatever [run_cmd] returns was decoded from the answer to its last
    [communicate], and the return code is the status in that answer. *)
Lemma run_cmd_output (w w' : world) (cmd : loc) (input : pyinput)
    (timeout : option Z) (ienc : str) (oenc : option str) (strip : bool)
    (o : pyobj) (rc : option Z) (t : bool) :
  run_cmd cmd input timeout ienc oenc strip w = (Ok (o, rc, t), w') →
  ∃ tr child inp tmo raw status,
    trace w' = tr ++ [EvCommunicate child inp tmo (Exits raw status)]
    ∧ decode oenc strip (Some raw) = inr o
    ∧ rc = Some status.
Proof.
  destruct (lists w !! cmd) as [argv|] eqn:Hcmd.
  2:{ destruct (run_cmd_dangling w cmd input timeout ienc oenc strip Hcmd)
        as (e & -> & He). discriminate. }
  rewrite (run_cmd_eq _ _ _ _ _ _ _ _ Hcmd).
  destruct (encode_input input ienc) as [e|data]; [discriminate|].
  cbv zeta. destruct (os_popen _ _ _) as [e|child]; [discriminate|].
  destruct (os_communicate _ _ _ _ _) as [out status|].
  { destruct (decode oenc strip (Some out)) as [e|o'] eqn:Hdec;
      [discriminate|].
    intros [= <- <- <- <-]. eexists _, _, _, _, out, status.
    split; [reflexivity|]. split; [exact Hdec|reflexivity]. }
  destruct timeout as [tm|]; [|discriminate].
  destruct (call_failure _) as [e|]; [discriminate|].
  destruct (os_communicate _ _ _ _ _) as [out status|];
    [|discriminate].
  destruct (decode oenc strip (Some out)) as [e|o'] eqn:Hdec;
    [discriminate|].
  intros [= <- <- <- <-]. eexists _, _, _, _, out, status.
  split; [reflexivity|]. split; [exact Hdec|reflexivity].
Qed.

(** ** [kill] *)

(** Once a [kill] has returned, every later [kill] of the same handle
    returns at once and leaves the world, trace included, as it is. *)
Lemma kill_after_kill (w w1 : world) (p : hid) :
  kill p w = (Ok tt, w1) → kill p w1 = (Ok tt, w1).
Proof.
  unfold kill at 1, get_handle, bind at 1.
  destruct (handles w !! p) as [h|] eqn:Hp; [|discriminate].
  destruct (p_kill_attr h) as [[]|] eqn:Hk.
  - intros [= <-]. eapply kill_noop; eauto.
  - destruct (p_class h);
      unfold _LinuxProcess_kill, _WindowsProcess_kill, os_killpg_call,
        subprocess_call, set_kill_attr, get_handle, bind;
      rewrite Hp.
    + destruct (os_killpg _ _ _ _); [discriminate|].
      cbn [log handles]. rewrite Hp. intros [= <-].
      eapply kill_noop; [apply set_handle_lookup|reflexivity].
    + destruct (os_call _ _); [discriminate|].
      cbn [log handles]. rewrite Hp. intros [= <-].
      eapply kill_noop; [apply set_handle_lookup|reflexivity].
Qed.

(** A [_LinuxProcess.kill] whose [os.killpg] fails raises before the
    method is replaced: the handle is as it was. *)
Lemma kill_posix_failure (w : world) (p : hid) (h : popen) (errno : Z) :
  handles w !! p = Some h → p_class h = Posix → p_kill_attr h = None →
  os_killpg os (trace w) (p_pid h) SIGTERM = Some errno →
  kill p w = (Raise (OSError errno),
              log (EvKillpg (p_pid h) SIGTERM (Some errno)) w).
Proof.
  intros Hp Hc Hk Hos.
  unfold kill, _LinuxProcess_kill, os_killpg_call, get_handle, bind.
  rewrite Hp, Hk, Hc, Hp, Hos. reflexivity.
Qed.

(** ** The claims *)

(** Read the trace off a world built by the equations above. *)
Ltac traces := cbn [fst snd spawned log set_handle trace].


(** C3, as the code has it.  When the first [communicate] is done before
    any timeout, which takes the process to have exited and its output
    pipe to be closed, [run_cmd] returns the decoded output, the exit
    status the OS reports, and [False]. *)
Theorem run_cmd_normal_exit (w : world) (cmd : loc) (argv : list str)
    (input : pyinput) (data : bytes) (timeout : option Z) (ienc : str)
    (oenc : option str) (strip : bool) (child : pid) (out : bytes)
    (status : Z) (o : pyobj) :
  let req := start_request argv false in
  let tr1 := trace w ++ [EvPopen req (inr child)] in
  lists w !! cmd = Some argv →
  encode_input input ienc = inr data →
  os_popen os (trace w) req = inr child →
  os_communicate os tr1 child (Some data) timeout = Exits out status →
  decode oenc strip (Some out) = inr o →
  ∃ w', run_cmd cmd input timeout ienc oenc strip w
        = (Ok (o, Some status, false), w')
      ∧ trace w' = tr1 ++ [EvCommunicate child (Some data) timeout
                             (Exits out status)]
      ∧ p_returncode <$> handles w' !! next_hid w = Some (Some status).
Proof.
  cbv zeta. intros Hcmd Henc Hspawn Hc1 Hdec.
  rewrite (run_cmd_eq _ _ _ _ _ _ _ _ Hcmd), Henc. cbv zeta.
  rewrite Hspawn. traces. rewrite Hc1, Hdec.
  eexists. split; [reflexivity|]. split; [reflexivity|].
  rewrite set_handle_lookup. reflexivity.
Qed.

(** C7. A command that cannot be launched: the error of the one [Popen]
    attempt comes out of [start], and out of [run_cmd], as it is; nothing
    is retried, and no result triple is made of it. *)
Theorem spawn_error_propagates (w : world) (cmd : loc) (argv : list str)
    (discard : bool) (e : spawn_error) :
  lists w !! cmd = Some argv →
  os_popen os (trace w) (start_request argv discard) = inl e →
  (start cmd discard w).1 = Raise (SpawnError e)
  ∧ trace (start cmd discard w).2
    = trace w ++ [EvPopen (start_request argv discard) (inl e)]
  ∧ (discard = false →
     ∀ input data timeout ienc oenc strip,
       encode_input input ienc = inr data →
       run_cmd cmd input timeout ienc oenc strip w
       = (Raise (SpawnError e), (start cmd discard w).2)).
Proof.
  intros Hcmd Hspawn. rewrite (start_eq _ _ _ _ Hcmd). cbv zeta.
  rewrite Hspawn. split; [reflexivity|]. split; [reflexivity|].
  intros -> input data timeout ienc oenc strip Henc.
  rewrite (run_cmd_eq _ _ _ _ _ _ _ _ Hcmd), Henc. cbv zeta.
  rewrite Hspawn. reflexivity.
Qed.

(** C8. [start] asks for a process whose stdin is a pipe and whose stdout
    and stderr are either one pipe (stderr sent to stdout) or both
    discarded, as [discard_output] says; the process of [run_cmd] is
    started with the pipe. *)
Theorem start_streams (w : world) (cmd : loc) (argv : list str)
    (discard : bool) :
  lists w !! cmd = Some argv →
  (∃ req ans,
     trace (start cmd discard w).2 = trace w ++ [EvPopen req ans]
     ∧ pr_stdin req = Some PIPE
     ∧ (pr_stdout req, pr_stderr req)
       = if discard then (Some DEVNULL, Some DEVNULL)
         else (Some PIPE, Some STDOUT))
  ∧ (∀ input data timeout ienc oenc strip,
       encode_input input ienc = inr data →
       ∃ req ans rest,
         trace (run_cmd cmd input timeout ienc oenc strip w).2
         = trace w ++ EvPopen req ans :: rest
         ∧ pr_stdin req = Some PIPE
         ∧ pr_stdout req = Some PIPE
         ∧ pr_stderr req = Some STDOUT).
Proof.
  intros Hcmd. split.
  - rewrite (start_eq _ _ _ _ Hcmd). cbv zeta.
    eexists _, _. split; [reflexivity|]. split; [reflexivity|].
    destruct discard; reflexivity.
  - intros input data timeout ienc oenc strip Henc.
    exists (start_request argv false).
    rewrite (run_cmd_eq _ _ _ _ _ _ _ _ Hcmd), Henc. cbv zeta.
    destruct (os_popen _ _ _) as [e|child].
    { eexists _, []. repeat split. }
    destruct (os_communicate _ _ _ _ _) as [out status|].
    { eexists _, _. traces. rewrite <- app_assoc. repeat split. }
    destruct timeout as [t|].
    2:{ eexists _, _. traces. rewrite <- app_assoc. repeat split. }
    destruct (call_failure _) as [e|].
    { eexists _, _. traces. rewrite <- !app_assoc. repeat split. }
    destruct (os_communicate _ _ _ _ _) as [out status|];
      eexists _, _; traces; rewrite <- !app_assoc; repeat split.
Qed.

(** C9. A [start] that returns a handle leaves, in the SIGTERM slot of
    the signal table, the handler of that handle, whatever was there
    before; no other slot changes.  When SIGTERM then arrives and the
    handle's [kill] returns, the host exits with status 1, after what
    [kill] did and nothing else. *)
Theorem start_installs_handler (w w1 : world) (cmd : loc) (discard : bool)
    (p : hid) :
  start cmd discard w = (Ok p, w1) →
  sig_handlers w1 !! SIGTERM = Some (StartHandler p)
  ∧ (∀ signum, signum ≠ SIGTERM →
       sig_handlers w1 !! signum = sig_handlers w !! signum)
  ∧ (∀ w2 w3,
       sig_handlers w2 !! SIGTERM = Some (StartHandler p) →
       kill p w2 = (Ok tt, w3) →
       deliver_signal SIGTERM w2 = (Raise (SystemExit 1), w3) ∧ 1 ≠ 0).
Proof.
  destruct (lists w !! cmd) as [argv|] eqn:Hcmd.
  2:{ rewrite (start_dangling _ _ _ Hcmd). discriminate. }
  rewrite (start_eq _ _ _ _ Hcmd). cbv zeta.
  destruct (os_popen _ _ _) as [e|child]; [discriminate|].
  intros [= <- <-]. cbn [spawned sig_handlers].
  split; [apply lookup_insert_eq|].
  split; [intros signum Hne; by apply lookup_insert_ne|].
  intros w2 w3 Hreg Hkill. split; [|done].
  unfold deliver_signal, handler, bind, sys_exit, raise.
  rewrite Hreg, Hkill. reflexivity.
Qed.

(** C5. With an output encoding, the output is the bytes of the last
    [communicate], decoded with replacement (which cannot fail), then
    with every [\r\n] and every other [\r] turned into [\n], then, if and
    only if [strip_shell_colors] is set, passed through the colour
    filter. *)
Theorem decode_pipeline (enc : str) (c : codec) (strip : bool) :
  codecs enc = Some c →
  let pipeline raw :=
    (if strip then strip_shell_colors else id)
      (normalize_line_endings (codec_decode_replace c raw)) in
  (∀ raw, decode (Some enc) strip (Some raw) = inr (PyStr (pipeline raw)))
  ∧ (∀ w w' cmd input timeout ienc o rc t,
       run_cmd cmd input timeout ienc (Some enc) strip w
       = (Ok (o, rc, t), w') →
       ∃ tr child inp tmo raw status,
         trace w' = tr ++ [EvCommunicate child inp tmo (Exits raw status)]
         ∧ o = PyStr (pipeline raw)).
Proof.
  intros Hc pipeline.
  assert (Hdec : ∀ raw,
             decode (Some enc) strip (Some raw) = inr (PyStr (pipeline raw))).
  { intros raw. unfold decode, bytes_decode_replace, pipeline.
    destruct raw as [|b raw].
    - rewrite (codec_decode_empty c), re_sub_newlines_two_pass.
      destruct strip; reflexivity.
    - rewrite Hc, re_sub_newlines_two_pass. destruct strip; reflexivity. }
  split; [exact Hdec|].
  intros w w' cmd input timeout ienc o rc t Hrun.
  destruct (run_cmd_output _ _ _ _ _ _ _ _ _ _ _ Hrun)
    as (tr & child & inp & tmo & raw & status & Htr & Ho & _).
  exists tr, child, inp, tmo, raw, status. split; [exact Htr|].
  rewrite Hdec in Ho. congruence.
Qed.

(** C6. Without an output encoding [decode] hands the bytes back as they
    are, and the output of [run_cmd] is the bytes of its last
    [communicate].  With one, and without colour stripping, [decode]
    gives the decoded text with its line endings normalised and nothing
    else done to it; that is the output of [run_cmd], no [\r] is left in
    it, and a text without [\r] comes out as it went in. *)
Theorem raw_and_text_output :
  (∀ strip raw, decode None strip (Some raw) = inr (PyBytes raw))
  ∧ (∀ enc c raw,
       codecs enc = Some c →
       decode (Some enc) false (Some raw)
       = inr (PyStr (normalize_line_endings (codec_decode_replace c raw))))
  ∧ (∀ w w' cmd input timeout ienc strip o rc t,
       run_cmd cmd input timeout ienc None strip w = (Ok (o, rc, t), w') →
       ∃ tr child inp tmo raw status,
         trace w' = tr ++ [EvCommunicate child inp tmo (Exits raw status)]
         ∧ o = PyBytes raw)
  ∧ (∀ w w' cmd input timeout ienc enc o rc t,
       run_cmd cmd input timeout ienc (Some enc) false w
       = (Ok (o, rc, t), w') →
       ∃ tr child inp tmo raw status text,
         trace w' = tr ++ [EvCommunicate child inp tmo (Exits raw status)]
         ∧ bytes_decode_replace enc raw = inr text
         ∧ (∀ c, codecs enc = Some c → text = codec_decode_replace c raw)
         ∧ o = PyStr (normalize_line_endings text)
         ∧ (CR ∉ normalize_line_endings text)
         ∧ (CR ∉ text → normalize_line_endings text = text)).
Proof.
  split; [reflexivity|]. split; [|split].
  - intros enc c raw Hc. unfold decode, bytes_decode_replace.
    destruct raw as [|b raw].
    + rewrite (codec_decode_empty c), re_sub_newlines_two_pass. reflexivity.
    + rewrite Hc, re_sub_newlines_two_pass. reflexivity.
  - intros w w' cmd input timeout ienc strip o rc t Hrun.
    destruct (run_cmd_output _ _ _ _ _ _ _ _ _ _ _ Hrun)
      as (tr & child & inp & tmo & raw & status & Htr & Ho & _).
    exists tr, child, inp, tmo, raw, status. split; [exact Htr|].
    cbn in Ho. congruence.
  - intros w w' cmd input timeout ienc enc o rc t Hrun.
    destruct (run_cmd_output _ _ _ _ _ _ _ _ _ _ _ Hrun)
      as (tr & child & inp & tmo & raw & status & Htr & Ho & _).
    unfold decode in Ho.
    destruct (bytes_decode_replace enc raw) as [e|text] eqn:Hdec;
      [discriminate|].
    exists tr, child, inp, tmo, raw, status, text.
    split; [exact Htr|]. split; [exact Hdec|]. split.
    { intros c Hc. unfold bytes_decode_replace in Hdec.
      destruct raw as [|b raw].
      - rewrite (codec_decode_empty c). congruence.
      - rewrite Hc in Hdec. congruence. }
    rewrite <- re_sub_newlines_two_pass.
    split; [congruence|].
    split; [apply re_sub_newlines_no_CR|apply re_sub_newlines_id].
Qed.

(** C10. In raw-bytes mode [strip_shell_colors] changes nothing, and for
    an input that is already [bytes] neither does [input_encoding]: the
    runs are the same, result and world. *)
Theorem flags_without_effect (w : world) (cmd : loc) (timeout : option Z) :
  (∀ input ienc,
     run_cmd cmd input timeout ienc None true w
     = run_cmd cmd input timeout ienc None false w)
  ∧ (∀ data ienc1 ienc2 oenc strip,
       encode_input (InBytes data) ienc1 = inr data
       ∧ run_cmd cmd (InBytes data) timeout ienc1 oenc strip w
         = run_cmd cmd (InBytes data) timeout ienc2 oenc strip w).
Proof.
  split; [reflexivity|]. intros. split; reflexivity.
Qed.


End Properties.

(** ** The program on the small host *)

Example re_sub_newlines_mixed :
  re_sub_newlines (u "a" ++ [CR; LF] ++ u "b" ++ [CR] ++ u "c" ++ [CR; CR; LF])
  = u "a" ++ [LF] ++ u "b" ++ [LF] ++ u "c" ++ [LF; LF].
Proof. reflexivity. Qed.

(** A byte that is not ASCII decodes to U+FFFD and the rest goes on. *)
Example ascii_decode_replaces :
  decode (host:=Demo.posix) (Some (u "ascii")) false
    (Some (Demo.b "a" ++ [Byte.xff] ++ Demo.b "b"))
  = inr (PyStr (u "a" ++ [REPLACEMENT] ++ u "b")).
Proof. reflexivity. Qed.

(** Text input is encoded and comes back through a program that copies
    its input. *)
Example echo_text_input :
  (run_cmd (host:=Demo.posix) 0%nat (InStr (u "abc")) None (u "ascii")
     (Some (u "ascii")) true (Demo.boot [u "cat"])).1
  = Ok (PyStr (u "abc"), Some 0, false).
Proof. vm_compute. reflexivity. Qed.

(** A process that ignores the signal: after the timeout and the [kill],
    the second [communicate] never returns, and neither does [run_cmd]. *)
Example trapped_signal_blocks :
  (run_cmd (host:=Demo.posix) 0%nat (InBytes []) (Some 1) (u "ascii")
     (Some (u "ascii")) true (Demo.boot [u "trap"])).1
  = Blocks.
Proof. vm_compute. reflexivity. Qed.


Lemma run_cmd_normal_exit_witness :
  ∃ w', run_cmd (host:=Demo.posix) 0%nat (InBytes []) (Some 5) (u "ascii")
          (Some (u "ascii")) true (Demo.boot [u "hello"])
        = (Ok (PyStr (u "hello" ++ [LF] ++ u "world"), Some 0, false), w').
Proof.
  destruct (run_cmd_normal_exit (host:=Demo.posix) (Demo.boot [u "hello"])
              0%nat [u "hello"] (InBytes []) [] (Some 5) (u "ascii")
              (Some (u "ascii")) true 100
              (Demo.b "hello" ++ [Byte.x0d; Byte.x0a] ++ Demo.b "world") 0
              (PyStr (u "hello" ++ [LF] ++ u "world")))
    as (w' & Hrun & _);
    [vm_compute; reflexivity ..|].
  exists w'. exact Hrun.
Defined.

Lemma spawn_error_propagates_witness :
  (start (host:=Demo.posix) 0%nat false (Demo.boot [u "/no/such/file"])).1
  = Raise (SpawnError FileNotFound)
  ∧ (run_cmd (host:=Demo.posix) 0%nat (InStr (u "abc")) (Some 1)
       (u "latin-1") None true (Demo.boot [u "/no/such/file"])).1
    = Raise (SpawnError FileNotFound).
Proof.
  destruct (spawn_error_propagates (host:=Demo.posix)
              (Demo.boot [u "/no/such/file"]) 0%nat [u "/no/such/file"]
              false FileNotFound)
    as (Hstart & _ & Hrun);
    [vm_compute; reflexivity ..|].
  split; [exact Hstart|].
  rewrite (Hrun eq_refl (InStr (u "abc")) (Demo.b "abc") (Some 1)
             (u "latin-1") None true);
    [reflexivity | vm_compute; reflexivity].
Defined.

Lemma start_streams_witness :
  ∃ req ans,
    trace (start (host:=Demo.windows) 0%nat true (Demo.boot [u "sleep"])).2
    = [EvPopen req ans]
    ∧ pr_stdin req = Some PIPE
    ∧ (pr_stdout req, pr_stderr req) = (Some DEVNULL, Some DEVNULL).
Proof.
  destruct (start_streams (host:=Demo.windows) (Demo.boot [u "sleep"])
              0%nat [u "sleep"] true)
    as [(req & ans & Htr & Hin & Hout) _];
    [vm_compute; reflexivity|].
  exists req, ans. repeat split; assumption.
Defined.

Lemma start_installs_handler_witness :
  sig_handlers (start (host:=Demo.posix) 0%nat false
                  (Demo.boot [u "sleep"])).2 !! SIGTERM
  = Some (StartHandler 0%nat)
  ∧ (deliver_signal (host:=Demo.posix) SIGTERM
       (start (host:=Demo.posix) 0%nat false (Demo.boot [u "sleep"])).2).1
    = Raise (SystemExit 1).
Proof.
  destruct (start_installs_handler (host:=Demo.posix)
              (Demo.boot [u "sleep"])
              (start (host:=Demo.posix) 0%nat false
                 (Demo.boot [u "sleep"])).2
              0%nat false 0%nat)
    as (Hreg & _ & Hsig);
    [vm_compute; reflexivity|].
  split; [exact Hreg|].
  destruct (Hsig _ (kill (host:=Demo.posix) 0%nat
                      (start (host:=Demo.posix) 0%nat false
                         (Demo.boot [u "sleep"])).2).2 Hreg)
    as [Hdel _];
    [vm_compute; reflexivity|].
  rewrite Hdel. reflexivity.
Defined.

Lemma decode_pipeline_witness :
  decode (host:=Demo.posix) (Some (u "latin-1")) true
    (Some (Demo.b "ok" ++ [Byte.x0d]))
  = inr (PyStr (Demo.strip_colors
                  (normalize_line_endings (u "ok" ++ [CR])))).
Proof.
  destruct (decode_pipeline (host:=Demo.posix) (u "latin-1")
              Demo.latin1_codec true)
    as [Hdec _];
    [vm_compute; reflexivity|].
  exact (Hdec (Demo.b "ok" ++ [Byte.x0d])).
Defined.

Lemma raw_and_text_output_witness :
  decode (host:=Demo.posix) (Some (u "latin-1")) false
    (Some (Demo.b "a" ++ [Byte.x0d; Byte.x0a; Byte.xe9; Byte.x0d]))
  = inr (PyStr (normalize_line_endings (u "a" ++ [CR; LF; 233%N; CR])))
  ∧ (∃ tr child inp tmo raw status,
       trace (run_cmd (host:=Demo.posix) 0%nat (InBytes []) None (u "ascii")
                None true (Demo.boot [u "hello"])).2
       = tr ++ [EvCommunicate child inp tmo (Exits raw status)]
       ∧ PyBytes (Demo.b "hello" ++ [Byte.x0d; Byte.x0a] ++ Demo.b "world")
         = PyBytes raw)
  ∧ (∃ tr child inp tmo raw status text,
       trace (run_cmd (host:=Demo.posix) 0%nat (InBytes []) None (u "ascii")
                (Some (u "latin-1")) false (Demo.boot [u "hello"])).2
       = tr ++ [EvCommunicate child inp tmo (Exits raw status)]
       ∧ bytes_decode_replace (host:=Demo.posix) (u "latin-1") raw = inr text
       ∧ PyStr (u "hello" ++ [LF] ++ u "world")
         = PyStr (normalize_line_endings text)).
Proof.
  destruct (raw_and_text_output (host:=Demo.posix))
    as (_ & Htext & Hraw & Hrun).
  split; [|split].
  - apply (Htext (u "latin-1") Demo.latin1_codec). reflexivity.
  - refine (Hraw (Demo.boot [u "hello"]) _ 0%nat (InBytes []) None
              (u "ascii") true _ (Some 0) false _).
    vm_compute. reflexivity.
  - destruct (Hrun (Demo.boot [u "hello"])
                (run_cmd (host:=Demo.posix) 0%nat (InBytes []) None
                   (u "ascii") (Some (u "latin-1")) false
                   (Demo.boot [u "hello"])).2
                0%nat (InBytes []) None (u "ascii") (u "latin-1")
                (PyStr (u "hello" ++ [LF] ++ u "world")) (Some 0) false)
      as (tr & child & inp & tmo & raw & status & text & Htr & Hdec & _
          & Ho & _);
      [vm_compute; reflexivity|].
    exists tr, child, inp, tmo, raw, status, text.
    split; [exact Htr|]. split; [exact Hdec|exact Ho].
Defined.



(** C2, where the code falls short.  The process has exited and its
    status has been collected, so the first [kill] fails in [os.killpg]
    and raises before [self.kill] is replaced.  The OS then gives the
    same process identifier to the next process started.  The second
    [kill] of the old handle is not a no-op: it signals the group of that
    identifier, which now is the new process. *)
Theorem second_kill_signals_reused_pid :
  Demo.first_kill.1 = Raise (OSError ESRCH)
  ∧ p_kill_attr <$> handles Demo.first_kill.2 !! 0%nat = Some None
  ∧ Demo.restarted.1 = Ok 1%nat
  ∧ p_pid <$> handles Demo.restarted.2 !! 0%nat = Some 100
  ∧ p_pid <$> handles Demo.restarted.2 !! 1%nat = Some 100
  ∧ Demo.second_kill.1 = Ok tt
  ∧ trace Demo.second_kill.2
    = trace Demo.restarted.2 ++ [EvKillpg 100 SIGTERM None].
Proof. vm_compute. repeat split. Qed.

(** * Further properties *)

(** ** Line endings, continued *)

(** Normalising twice is normalising once. *)
Theorem re_sub_newlines_idempotent (s : str) :
  re_sub_newlines (re_sub_newlines s) = re_sub_newlines s.
Proof. apply re_sub_newlines_id, re_sub_newlines_no_CR. Qed.

(** The text never gets longer. *)
Theorem re_sub_newlines_length (s : str) :
  (length (re_sub_newlines s) ≤ length s)%nat.
Proof.
  remember (length s) as n eqn:Hn.
  revert s Hn. induction (lt_wf n) as [n _ IH]. intros s ->.
  destruct s as [|c [|c' rest]]; [cbn; lia | |].
  - cbn. destruct (N.eqb c CR); cbn; lia.
  - rewrite re_sub_newlines_cons2.
    destruct (N.eqb c CR); [destruct (N.eqb c' LF)|]; cbn [length].
    + specialize (IH (length rest) ltac:(cbn; lia) rest eq_refl). lia.
    + specialize (IH (length (c' :: rest)) ltac:(cbn; lia) (c' :: rest)
                    eq_refl). cbn [length] in IH. lia.
    + specialize (IH (length (c' :: rest)) ltac:(cbn; lia) (c' :: rest)
                    eq_refl). cbn [length] in IH. lia.
Qed.

(** Every other character is kept, in its place among the others. *)
Theorem re_sub_newlines_keeps_text (s : str) :
  filter (λ c, not_line_ending c = true) (re_sub_newlines s)
  = filter (λ c, not_line_ending c = true) s.
Proof.
  remember (length s) as n eqn:Hn.
  revert s Hn. induction (lt_wf n) as [n _ IH]. intros s ->.
  unfold str in *.
  destruct s as [|c [|c' rest]]; [reflexivity | |].
  - cbn [re_sub_newlines].
    destruct (N.eqb_spec c CR) as [->|_]; reflexivity.
  - rewrite re_sub_newlines_cons2.
    destruct (N.eqb_spec c CR) as [->|_].
    + destruct (N.eqb_spec c' LF) as [->|_].
      * rewrite !filter_cons_False by (cbv; discriminate).
        apply (IH (length rest)); [cbn; lia | reflexivity].
      * rewrite (filter_cons_False _ LF) by (cbv; discriminate).
        rewrite (filter_cons_False _ CR) by (cbv; discriminate).
        apply (IH (length (c' :: rest))); [cbn; lia | reflexivity].
    + rewrite (filter_cons _ c (re_sub_newlines _)), (filter_cons _ c).
      rewrite (IH (length (c' :: rest)) ltac:(cbn; lia) (c' :: rest) eq_refl).
      reflexivity.
Qed.

(** ** [kill], continued *)

Section MoreProperties.

Context {host : Host}.

Ltac traces := cbn [fst snd spawned log set_handle trace].

(** After a [kill] that returned, any number of further calls return at
    once: no OS call is made and nothing changes. *)
Theorem kill_repeated_noop (w w1 : world) (p : hid) (n : nat) :
  kill p w = (Ok tt, w1) → kill_times p n w1 = (Ok tt, w1).
Proof.
  intros Hkill. apply kill_after_kill in Hkill.
  induction n as [|n IH]; [reflexivity|].
  cbn [kill_times]. unfold bind. rewrite Hkill. exact IH.
Qed.

(** The first [kill] of a handle makes exactly one OS call: on POSIX
    [os.killpg(pid, SIGTERM)] with the child's identifier as group, on
    Windows [taskkill /F /T /PID pid] with no shell and both of its
    output streams discarded. *)
Theorem kill_first_call (w : world) (p : hid) (h : popen) :
  handles w !! p = Some h → p_kill_attr h = None →
  match p_class h with
  | Posix =>
      ∃ ans, trace (kill p w).2 = trace w ++ [EvKillpg (p_pid h) SIGTERM ans]
  | Windows =>
      ∃ ans, trace (kill p w).2
             = trace w ++
               [EvCall {| pr_args := [u "taskkill"; u "/F"; u "/T"; u "/PID";
                                      str_of_int (p_pid h)];
                          pr_stdin := None;
                          pr_stdout := Some DEVNULL;
                          pr_stderr := Some DEVNULL;
                          pr_setsid := false;
                          pr_shell := false |} ans]
  end.
Proof.
  intros Hp Hk.
  destruct (p_class h) eqn:Hc;
    unfold kill, _LinuxProcess_kill, _WindowsProcess_kill, os_killpg_call,
      subprocess_call, set_kill_attr, get_handle, bind;
    rewrite Hp; cbv beta iota; rewrite Hk, Hc, Hp; cbv beta iota zeta.
  - destruct (os_killpg _ _ _ _); eexists.
    + cbn [snd log trace]. reflexivity.
    + cbn [log handles]. rewrite Hp. cbn [snd set_handle log trace].
      reflexivity.
  - unfold taskkill_cmd. destruct (os_call _ _ _); eexists.
    + cbn [snd log trace]. reflexivity.
    + cbn [log handles]. rewrite Hp. cbn [snd set_handle log trace].
      reflexivity.
Qed.

(** On Windows the exit status of [taskkill] is not looked at: whatever
    it is, [kill] returns and has replaced itself by the no-op. *)
Theorem windows_kill_ignores_status (w : world) (p : hid) (h : popen)
    (rc : Z) :
  handles w !! p = Some h → p_class h = Windows → p_kill_attr h = None →
  os_call os (trace w)
    {| pr_args := taskkill_cmd (p_pid h); pr_stdin := None;
       pr_stdout := Some DEVNULL; pr_stderr := Some DEVNULL;
       pr_setsid := false; pr_shell := false |} = inr rc →
  (kill p w).1 = Ok tt
  ∧ p_kill_attr <$> handles (kill p w).2 !! p = Some (Some LambdaNone).
Proof.
  intros Hp Hc Hk Hos.
  unfold kill, _WindowsProcess_kill, subprocess_call, set_kill_attr,
    get_handle, bind.
  rewrite Hp. cbv beta iota. rewrite Hk, Hc, Hp. cbv beta iota zeta.
  rewrite Hos. cbn [log handles]. rewrite Hp.
  split; [reflexivity|]. cbn [snd]. rewrite set_handle_lookup. reflexivity.
Qed.

(** A first [kill] whose OS call fails raises the error of that call and
    leaves the handle as it was, so that the next [kill] makes the call
    again. *)
Theorem kill_failure_keeps_method (w : world) (p : hid) (h : popen)
    (e : exn) :
  handles w !! p = Some h → p_kill_attr h = None →
  p_class h = (if on_windows then Windows else Posix) →
  call_failure (kill_call (trace w) (p_pid h)) = Some e →
  (kill p w).1 = Raise e
  ∧ handles (kill p w).2 = handles w
  ∧ trace (kill p (kill p w).2).2
    = trace w ++ [kill_call (trace w) (p_pid h);
                  kill_call (trace w ++ [kill_call (trace w) (p_pid h)])
                    (p_pid h)].
Proof.
  intros Hp Hk Hc Hfail.
  rewrite (kill_first_eq _ _ _ Hp Hk Hc). cbv zeta. rewrite Hfail.
  split; [reflexivity|]. split; [reflexivity|].
  cbn [snd].
  assert (Hp' : handles (log (kill_call (trace w) (p_pid h)) w) !! p = Some h)
    by exact Hp.
  rewrite (kill_first_eq _ _ _ Hp' Hk Hc). cbv zeta.
  clear Hfail. traces.
  destruct (call_failure _); traces; rewrite <- app_assoc; reflexivity.
Qed.

(** ** [start] and [run_cmd], continued *)

(** On POSIX the child is asked to run [os.setsid] before it executes, and
    a [kill] of the handle signals the process group whose identifier is
    the child's: the group the child was made the leader of. *)
Theorem posix_kill_signals_own_group (w : world) (cmd : loc)
    (argv : list str) (discard : bool) (child : pid) :
  on_windows = false →
  lists w !! cmd = Some argv →
  os_popen os (trace w) (start_request argv discard) = inr child →
  ∃ req ans,
    trace (kill (next_hid w) (start cmd discard w).2).2
    = trace w ++ [EvPopen req (inr child); EvKillpg child SIGTERM ans]
    ∧ pr_setsid req = true
    ∧ pr_args req = argv.
Proof.
  intros Hposix Hcmd Hspawn.
  rewrite (start_eq _ _ _ _ Hcmd). cbv zeta. rewrite Hspawn. cbn [snd].
  rewrite (kill_first_eq _ _ _ (spawned_handle _ _ _ _ _) eq_refl eq_refl).
  cbv zeta. change (p_pid (new_handle discard child)) with child.
  unfold kill_call. rewrite Hposix.
  exists (start_request argv discard), (os_killpg os
    (trace (spawned cmd argv discard (inr child) w)) child SIGTERM).
  split; [|split].
  - destruct (os_killpg _ _ _ _); cbn [call_failure]; traces;
      rewrite <- app_assoc; reflexivity.
  - unfold start_request. cbn [pr_setsid]. rewrite Hposix. reflexivity.
  - unfold start_request, spawn_argv. cbn [pr_args]. rewrite Hposix.
    reflexivity.
Qed.

(** Without a timeout [run_cmd] never kills: it makes at most the two
    calls [Popen] and [communicate], a process that does not exit makes
    it wait for ever, and what it returns is never flagged as timed
    out. *)
Theorem run_cmd_without_timeout (w : world) (cmd : loc) (input : pyinput)
    (ienc : str) (oenc : option str) (strip : bool) :
  ∃ evs,
    trace (run_cmd cmd input None ienc oenc strip w).2 = trace w ++ evs
    ∧ (length evs ≤ 2)%nat
    ∧ Forall (λ ev, is_kill_call ev = false) evs
    ∧ (∀ child data, last evs = Some (EvCommunicate child data None
                                         StillRunning) →
         (run_cmd cmd input None ienc oenc strip w).1 = Blocks)
    ∧ (∀ o rc t, (run_cmd cmd input None ienc oenc strip w).1
                 = Ok (o, rc, t) → t = false).
Proof.
  destruct (lists w !! cmd) as [argv|] eqn:Hcmd.
  2:{ destruct (run_cmd_dangling w cmd input None ienc oenc strip Hcmd)
        as (e & -> & He).
      exists []. rewrite app_nil_r. repeat split; try done; cbn; lia. }
  rewrite (run_cmd_eq _ _ _ _ _ _ _ _ Hcmd).
  destruct (encode_input input ienc) as [e|data].
  { exists []. rewrite app_nil_r. repeat split; try done; cbn; lia. }
  cbv zeta. destruct (os_popen _ _ _) as [e|child].
  { eexists [_]. traces. repeat split; try done; [cbn; lia|].
    repeat constructor. }
  destruct (os_communicate _ _ _ _ _) as [out status|].
  - eexists [_; _]. traces. rewrite <- app_assoc.
    split; [reflexivity|]. split; [cbn; lia|].
    split; [repeat constructor|]. split; [intros ? ? [=]|].
    intros o rc t. cbn [fst].
    destruct (decode oenc strip (Some out)); [discriminate|].
    intros [= _ _ <-]. reflexivity.
  - eexists [_; _]. traces. rewrite <- app_assoc.
    split; [reflexivity|]. split; [cbn; lia|].
    split; [repeat constructor|]. split; [reflexivity|]. discriminate.
Qed.

(** The OS calls of a run that returns.  Not timed out: [Popen], then one
    [communicate] that got the input and found the process exited.  Timed
    out: a timeout was given, the first [communicate] got the input and
    ran into the deadline, one kill call followed, and a second
    [communicate] got no input and no deadline.  Either way one process
    was started, and the return code is the status of the last
    [communicate], never [None]. *)
Theorem run_cmd_calls (w w' : world) (cmd : loc) (input : pyinput)
    (timeout : option Z) (ienc : str) (oenc : option str) (strip : bool)
    (o : pyobj) (rc : option Z) (t : bool) :
  run_cmd cmd input timeout ienc oenc strip w = (Ok (o, rc, t), w') →
  ∃ req child data out status,
    encode_input input ienc = inr data
    ∧ rc = Some status
    ∧ if t then
        ∃ tm kev,
          timeout = Some tm
          ∧ is_kill_call kev = true
          ∧ trace w'
            = trace w ++
              [EvPopen req (inr child);
               EvCommunicate child (Some data) (Some tm) StillRunning;
               kev;
               EvCommunicate child None None (Exits out status)]
      else
        trace w'
        = trace w ++
          [EvPopen req (inr child);
           EvCommunicate child (Some data) timeout (Exits out status)].
Proof.
  destruct (lists w !! cmd) as [argv|] eqn:Hcmd.
  2:{ destruct (run_cmd_dangling w cmd input timeout ienc oenc strip Hcmd)
        as (e & -> & He). discriminate. }
  rewrite (run_cmd_eq _ _ _ _ _ _ _ _ Hcmd).
  destruct (encode_input input ienc) as [e|data]; [discriminate|].
  cbv zeta. destruct (os_popen _ _ _) as [e|child]; [discriminate|].
  destruct (os_communicate _ _ _ _ _) as [out status|].
  { destruct (decode oenc strip (Some out)) as [e|o']; [discriminate|].
    intros [= <- <- <- <-].
    exists (start_request argv false), child, data, out, status.
    split; [reflexivity|]. split; [reflexivity|].
    traces. rewrite <- app_assoc. reflexivity. }
  destruct timeout as [tm|]; [|discriminate].
  destruct (call_failure _) as [e|] eqn:Hkill; [discriminate|].
  destruct (os_communicate _ _ _ _ _) as [out status|]; [|discriminate].
  destruct (decode oenc strip (Some out)) as [e|o']; [discriminate|].
  intros [= <- <- <- <-].
  exists (start_request argv false), child, data, out, status.
  split; [reflexivity|]. split; [reflexivity|].
  eexists tm, _. split; [reflexivity|]. split.
  2:{ traces. rewrite <- !app_assoc. reflexivity. }
  unfold kill_call. destruct on_windows; reflexivity.
Qed.

(** A text input that cannot be encoded stops [run_cmd] before anything
    happens: no process is started, no handler installed, nothing
    changes. *)
Theorem input_error_before_spawn (w : world) (cmd : loc) (s : str)
    (timeout : option Z) (ienc : str) (oenc : option str) (strip : bool) :
  match codecs ienc with
  | None =>
      run_cmd cmd (InStr s) timeout ienc oenc strip w
      = (Raise (LookupError ienc), w)
  | Some c =>
      codec_encode c s = None →
      run_cmd cmd (InStr s) timeout ienc oenc strip w
      = (Raise UnicodeEncodeError, w)
  end.
Proof.
  unfold run_cmd, encode_input.
  destruct (codecs ienc) as [c|]; [|reflexivity].
  intros ->. reflexivity.
Qed.


(** ** The SIGTERM handler, continued *)

(** After a run that ended by itself the handler stays registered and the
    handle's [kill] was never replaced: a SIGTERM that arrives later
    makes the kill call for the identifier of the process that is gone.
    If the call fails, its error comes out of the handler and
    [sys.exit(1)] is not reached; if it goes through, the host exits with
    status 1. *)
Theorem sigterm_after_normal_run (w : world) (cmd : loc) (argv : list str)
    (input : pyinput) (data : bytes) (timeout : option Z) (ienc : str)
    (oenc : option str) (strip : bool) (child : pid) (out : bytes)
    (status : Z) :
  let req := start_request argv false in
  let tr1 := trace w ++ [EvPopen req (inr child)] in
  let w' := (run_cmd cmd input timeout ienc oenc strip w).2 in
  let ev := kill_call (trace w') child in
  lists w !! cmd = Some argv →
  encode_input input ienc = inr data →
  os_popen os (trace w) req = inr child →
  os_communicate os tr1 child (Some data) timeout = Exits out status →
  trace (deliver_signal SIGTERM w').2 = trace w' ++ [ev]
  ∧ (deliver_signal SIGTERM w').1
    = match call_failure ev with
      | Some e => Raise e
      | None => Raise (SystemExit 1)
      end.
Proof.
  cbv zeta. intros Hcmd Hin Hspawn Hc1.
  rewrite (run_cmd_eq _ _ _ _ _ _ _ _ Hcmd), Hin. cbv zeta.
  rewrite Hspawn. traces. rewrite Hc1. cbn [snd].
  set (h := with_returncode (new_handle false child) status).
  set (w' := set_handle (next_hid w) h _).
  assert (Hh : handles w' !! next_hid w = Some h) by apply set_handle_lookup.
  assert (Hreg : sig_handlers w' !! SIGTERM = Some (StartHandler (next_hid w)))
    by apply lookup_insert_eq.
  unfold deliver_signal, handler, bind, sys_exit, raise. rewrite Hreg.
  rewrite (kill_first_eq _ _ _ Hh eq_refl eq_refl). cbv zeta.
  change (p_pid h) with child.
  destruct (call_failure (kill_call (trace w') child)); split; reflexivity.
Qed.

(** After a run that timed out the handle's [kill] is the no-op: a
    SIGTERM that arrives later makes no OS call, and the host exits with
    status 1. *)
Theorem sigterm_after_timed_out_run (w : world) (cmd : loc)
    (argv : list str) (input : pyinput) (data : bytes) (t : Z) (ienc : str)
    (oenc : option str) (strip : bool) (child : pid) (out : bytes)
    (status : Z) :
  let req := start_request argv false in
  let tr1 := trace w ++ [EvPopen req (inr child)] in
  let tr2 := tr1 ++ [EvCommunicate child (Some data) (Some t) StillRunning] in
  let tr3 := tr2 ++ [kill_call tr2 child] in
  let w' := (run_cmd cmd input (Some t) ienc oenc strip w).2 in
  lists w !! cmd = Some argv →
  encode_input input ienc = inr data →
  os_popen os (trace w) req = inr child →
  os_communicate os tr1 child (Some data) (Some t) = StillRunning →
  call_failure (kill_call tr2 child) = None →
  os_communicate os tr3 child None None = Exits out status →
  deliver_signal SIGTERM w' = (Raise (SystemExit 1), w').
Proof.
  cbv zeta. intros Hcmd Hin Hspawn Hc1 Hkill Hc2.
  rewrite (run_cmd_eq _ _ _ _ _ _ _ _ Hcmd), Hin. cbv zeta.
  rewrite Hspawn. traces. rewrite Hc1, Hkill, Hc2. cbn [snd].
  set (h := with_returncode _ status).
  set (w' := set_handle (next_hid w) h _).
  assert (Hh : handles w' !! next_hid w = Some h) by apply set_handle_lookup.
  assert (Hreg : sig_handlers w' !! SIGTERM = Some (StartHandler (next_hid w)))
    by apply lookup_insert_eq.
  unfold deliver_signal, handler, bind, sys_exit, raise. rewrite Hreg.
  rewrite (kill_noop _ _ _ Hh eq_refl). reflexivity.
Qed.

(** Of two processes started one after the other only the second is
    covered: a SIGTERM makes the kill call for the second process alone,
    and the handle of the first is not touched. *)
Theorem last_registration_wins (w w1 w2 : world) (cmd1 cmd2 : loc)
    (d1 d2 : bool) (p1 p2 : hid) :
  start cmd1 d1 w = (Ok p1, w1) →
  start cmd2 d2 w1 = (Ok p2, w2) →
  p1 ≠ p2
  ∧ sig_handlers w2 !! SIGTERM = Some (StartHandler p2)
  ∧ ∃ h2, handles w2 !! p2 = Some h2
          ∧ trace (deliver_signal SIGTERM w2).2
            = trace w2 ++ [kill_call (trace w2) (p_pid h2)]
          ∧ handles (deliver_signal SIGTERM w2).2 !! p1 = handles w2 !! p1.
Proof.
  destruct (lists w !! cmd1) as [argv1|] eqn:Hcmd1.
  2:{ rewrite (start_dangling _ _ _ Hcmd1). discriminate. }
  rewrite (start_eq _ _ _ _ Hcmd1). cbv zeta.
  destruct (os_popen _ _ _) as [e|child1]; [discriminate|].
  intros [= <- <-].
  destruct (lists (spawned cmd1 argv1 d1 (inr child1) w) !! cmd2)
    as [argv2|] eqn:Hcmd2.
  2:{ rewrite (start_dangling _ _ _ Hcmd2). discriminate. }
  rewrite (start_eq _ _ _ _ Hcmd2). cbv zeta.
  destruct (os_popen _ _ _) as [e|child2]; [discriminate|].
  intros [= <- <-]. cbn [spawned next_hid].
  set (w1 := spawned cmd1 argv1 d1 (inr child1) w).
  set (w2 := spawned cmd2 argv2 d2 (inr child2) w1).
  assert (Hne : next_hid w ≠ S (next_hid w)) by lia.
  split; [exact Hne|]. split; [apply lookup_insert_eq|].
  exists (new_handle d2 child2).
  assert (Hh : handles w2 !! S (next_hid w) = Some (new_handle d2 child2))
    by apply (spawned_handle w1).
  split; [exact Hh|].
  assert (Hreg : sig_handlers w2 !! SIGTERM
                 = Some (StartHandler (S (next_hid w))))
    by apply lookup_insert_eq.
  unfold deliver_signal, handler, bind, sys_exit, raise. rewrite Hreg.
  rewrite (kill_first_eq _ _ _ Hh eq_refl eq_refl). cbv zeta.
  destruct (call_failure _); split; try reflexivity.
  cbn [snd set_handle log handles]. by rewrite lookup_insert_ne.
Qed.

(** ** The Windows interpreter shim, continued *)

Lemma endswith_spec (s suffix : str) :
  endswith s suffix = true ↔ ∃ stem, s = stem ++ suffix.
Proof.
  unfold endswith. rewrite bool_decide_eq_true. split.
  - intros Hdrop. exists (take (length s - length suffix) s).
    pose proof (take_drop (length s - length suffix) s) as Hsplit.
    rewrite Hdrop in Hsplit. symmetry. exact Hsplit.
  - intros [stem ->]. rewrite length_app.
    replace (length stem + length suffix - length suffix)%nat
      with (length stem) by lia.
    apply drop_app_length.
Qed.

(** On Windows the interpreter is put in front exactly when the command
    is not empty and its first element is some stem followed by [.py]. *)
Theorem windows_interpreter_iff (w : world) (cmd : loc) (argv : list str)
    (discard : bool) :
  on_windows = true →
  lists w !! cmd = Some argv →
  ∃ req ans,
    trace (start cmd discard w).2 = trace w ++ [EvPopen req ans]
    ∧ ((∃ stem rest, argv = (stem ++ u ".py") :: rest) →
       pr_args req = sys_executable :: argv)
    ∧ ((¬ ∃ stem rest, argv = (stem ++ u ".py") :: rest) →
       pr_args req = argv).
Proof.
  intros Hwin Hcmd. rewrite (start_eq _ _ _ _ Hcmd). cbv zeta.
  eexists _, _. split; [reflexivity|].
  unfold start_request, spawn_argv. cbn [pr_args]. rewrite Hwin.
  cbn [andb]. split.
  - intros (stem & rest & ->). cbn [needs_interpreter].
    rewrite (proj2 (endswith_spec _ _)) by eauto. reflexivity.
  - intros Hno. destruct argv as [|a0 rest]; [reflexivity|].
    cbn [needs_interpreter].
    destruct (endswith a0 (u ".py")) eqn:Hend; [|reflexivity].
    apply endswith_spec in Hend as [stem ->]. exfalso. eauto.
Qed.

(** On Windows, starting the same list object again after the
    interpreter was put in front of it does not put it there a second
    time, as long as the interpreter's own path does not end in [.py]:
    the list stays as the first call left it, and the OS is asked for the
    same argument vector. *)
Theorem windows_restart_stable (w : world) (cmd : loc) (argv : list str)
    (d d' : bool) :
  on_windows = true →
  endswith sys_executable (u ".py") = false →
  needs_interpreter argv = true →
  lists w !! cmd = Some argv →
  lists (start cmd d' (start cmd d w).2).2 = lists (start cmd d w).2
  ∧ ∃ req ans,
      trace (start cmd d' (start cmd d w).2).2
      = trace (start cmd d w).2 ++ [EvPopen req ans]
      ∧ pr_args req = sys_executable :: argv.
Proof.
  intros Hwin Hexe Hpy Hcmd.
  rewrite (start_eq _ _ _ _ Hcmd). cbv zeta. cbn [snd].
  set (w1 := spawned cmd argv d _ w).
  assert (Hcmd1 : lists w1 !! cmd = Some (sys_executable :: argv)).
  { subst w1. cbn [spawned lists]. rewrite Hwin, Hpy. cbn [andb].
    apply lookup_insert_eq. }
  rewrite (start_eq _ _ _ _ Hcmd1). cbv zeta. cbn [snd spawned lists trace].
  cbn [needs_interpreter]. rewrite Hexe, andb_false_r.
  split; [reflexivity|].
  eexists _, _. split; [reflexivity|].
  unfold start_request, spawn_argv. cbn [pr_args needs_interpreter].
  rewrite Hexe, andb_false_r. reflexivity.
Qed.

End MoreProperties.

(** ** The further properties on the small host *)

Lemma kill_repeated_noop_witness :
  kill_times (host:=Demo.posix) 0%nat 3
    (kill (host:=Demo.posix) 0%nat Demo.sleeping).2
  = (Ok tt, (kill (host:=Demo.posix) 0%nat Demo.sleeping).2).
Proof.
  apply (kill_repeated_noop (host:=Demo.posix) Demo.sleeping).
  vm_compute. reflexivity.
Defined.

Lemma kill_first_call_witness :
  ∃ ans,
    trace (kill (host:=Demo.windows) 0%nat Demo.sleeping_win).2
    = trace Demo.sleeping_win ++
      [EvCall {| pr_args := [u "taskkill"; u "/F"; u "/T"; u "/PID";
                             u "100"];
                 pr_stdin := None; pr_stdout := Some DEVNULL;
                 pr_stderr := Some DEVNULL; pr_setsid := false;
                 pr_shell := false |} ans].
Proof.
  apply (kill_first_call (host:=Demo.windows) Demo.sleeping_win 0%nat
           {| p_class := Windows; p_pid := 100; p_stdout := Some PIPE;
              p_returncode := None; p_kill_attr := None |});
    vm_compute; reflexivity.
Defined.

Lemma windows_kill_ignores_status_witness :
  (kill (host:=Demo.windows) 0%nat Demo.sleeping_win).1 = Ok tt
  ∧ p_kill_attr <$>
      handles (kill (host:=Demo.windows) 0%nat Demo.sleeping_win).2 !! 0%nat
    = Some (Some LambdaNone).
Proof.
  apply (windows_kill_ignores_status (host:=Demo.windows) Demo.sleeping_win
           0%nat
           {| p_class := Windows; p_pid := 100; p_stdout := Some PIPE;
              p_returncode := None; p_kill_attr := None |} 0);
    vm_compute; reflexivity.
Defined.

Lemma kill_failure_keeps_method_witness :
  (kill (host:=Demo.posix) 0%nat Demo.after_exit).1 = Raise (OSError ESRCH)
  ∧ handles (kill (host:=Demo.posix) 0%nat Demo.after_exit).2
    = handles Demo.after_exit.
Proof.
  destruct (kill_failure_keeps_method (host:=Demo.posix) Demo.after_exit
              0%nat
              {| p_class := Posix; p_pid := 100; p_stdout := Some PIPE;
                 p_returncode := Some 0; p_kill_attr := None |}
              (OSError ESRCH))
    as (Hraise & Hsame & _);
    [vm_compute; reflexivity ..|].
  split; assumption.
Defined.

Lemma posix_kill_signals_own_group_witness :
  ∃ req ans,
    trace (kill (host:=Demo.posix) 0%nat Demo.sleeping).2
    = [EvPopen req (inr 100); EvKillpg 100 SIGTERM ans]
    ∧ pr_setsid req = true
    ∧ pr_args req = [u "sleep"].
Proof.
  apply (posix_kill_signals_own_group (host:=Demo.posix)
           (Demo.boot [u "sleep"]) 0%nat [u "sleep"] false 100);
    vm_compute; reflexivity.
Defined.

Lemma run_cmd_without_timeout_witness :
  ∃ evs,
    trace (run_cmd (host:=Demo.posix) 0%nat (InBytes []) None (u "ascii")
             None true (Demo.boot [u "trap"])).2
    = evs
    ∧ (length evs ≤ 2)%nat
    ∧ Forall (λ ev, is_kill_call ev = false) evs.
Proof.
  destruct (run_cmd_without_timeout (host:=Demo.posix)
              (Demo.boot [u "trap"]) 0%nat (InBytes []) (u "ascii") None true)
    as (evs & Htr & Hlen & Hno & _).
  exists evs. repeat split; assumption.
Defined.

Lemma run_cmd_calls_witness :
  ∃ req child data out status tm kev,
    is_kill_call kev = true
    ∧ trace (run_cmd (host:=Demo.posix) 0%nat (InBytes []) (Some 1)
               (u "ascii") None true (Demo.boot [u "sleep"])).2
      = [EvPopen req (inr child);
         EvCommunicate child (Some data) (Some tm) StillRunning;
         kev;
         EvCommunicate child None None (Exits out status)].
Proof.
  destruct (run_cmd_calls (host:=Demo.posix) (Demo.boot [u "sleep"])
              (run_cmd (host:=Demo.posix) 0%nat (InBytes []) (Some 1)
                 (u "ascii") None true (Demo.boot [u "sleep"])).2
              0%nat (InBytes []) (Some 1) (u "ascii") None true
              (PyBytes (Demo.b "zz")) (Some (-15)) true)
    as (req & child & data & out & status & _ & _ & tm & kev & _ & Hk & Htr);
    [vm_compute; reflexivity|].
  exists req, child, data, out, status, tm, kev. split; assumption.
Defined.

Lemma input_error_before_spawn_witness :
  run_cmd (host:=Demo.posix) 0%nat (InStr [REPLACEMENT]) None (u "ascii")
    None true (Demo.boot [u "cat"])
  = (Raise UnicodeEncodeError, Demo.boot [u "cat"]).
Proof.
  exact (input_error_before_spawn (host:=Demo.posix) (Demo.boot [u "cat"])
           0%nat [REPLACEMENT] None (u "ascii") None true eq_refl).
Defined.


Lemma sigterm_after_normal_run_witness :
  (deliver_signal (host:=Demo.posix) SIGTERM
     (run_cmd (host:=Demo.posix) 0%nat (InBytes []) None (u "ascii")
        None true (Demo.boot [u "hello"])).2).1
  = Raise (OSError ESRCH).
Proof.
  destruct (sigterm_after_normal_run (host:=Demo.posix)
              (Demo.boot [u "hello"]) 0%nat [u "hello"] (InBytes []) []
              None (u "ascii") None true 100
              (Demo.b "hello" ++ [Byte.x0d; Byte.x0a] ++ Demo.b "world") 0)
    as (_ & Hout);
    [vm_compute; reflexivity ..|].
  rewrite Hout. vm_compute. reflexivity.
Defined.

Lemma sigterm_after_timed_out_run_witness :
  deliver_signal (host:=Demo.posix) SIGTERM
    (run_cmd (host:=Demo.posix) 0%nat (InBytes []) (Some 1) (u "ascii")
       None true (Demo.boot [u "sleep"])).2
  = (Raise (SystemExit 1),
     (run_cmd (host:=Demo.posix) 0%nat (InBytes []) (Some 1) (u "ascii")
        None true (Demo.boot [u "sleep"])).2).
Proof.
  apply (sigterm_after_timed_out_run (host:=Demo.posix)
           (Demo.boot [u "sleep"]) 0%nat [u "sleep"] (InBytes []) [] 1
           (u "ascii") None true 100 (Demo.b "zz") (-15));
    vm_compute; reflexivity.
Defined.

Lemma last_registration_wins_witness :
  0%nat ≠ 1%nat
  ∧ sig_handlers
      (start (host:=Demo.posix) 0%nat false Demo.sleeping).2 !! SIGTERM
    = Some (StartHandler 1%nat).
Proof.
  destruct (last_registration_wins (host:=Demo.posix)
              (Demo.boot [u "sleep"]) Demo.sleeping
              (start (host:=Demo.posix) 0%nat false Demo.sleeping).2
              0%nat 0%nat false false 0%nat 1%nat)
    as (Hne & Hreg & _);
    [vm_compute; reflexivity ..|].
  split; assumption.
Defined.

Lemma windows_interpreter_iff_witness :
  ∃ req ans,
    trace (start (host:=Demo.windows) 0%nat false
             (Demo.boot [u "script.py"; u "sleep"])).2
    = [EvPopen req ans]
    ∧ pr_args req = [Demo.python_exe; u "script.py"; u "sleep"].
Proof.
  destruct (windows_interpreter_iff (host:=Demo.windows)
              (Demo.boot [u "script.py"; u "sleep"]) 0%nat
              [u "script.py"; u "sleep"] false)
    as (req & ans & Htr & Hyes & _);
    [vm_compute; reflexivity ..|].
  exists req, ans. split; [exact Htr|].
  apply Hyes. exists (u "script"), [u "sleep"]. reflexivity.
Defined.

Lemma windows_restart_stable_witness :
  lists (start (host:=Demo.windows) 0%nat true
           (start (host:=Demo.windows) 0%nat false
              (Demo.boot [u "script.py"])).2).2
  = lists (start (host:=Demo.windows) 0%nat false
             (Demo.boot [u "script.py"])).2.
Proof.
  destruct (windows_restart_stable (host:=Demo.windows)
              (Demo.boot [u "script.py"]) 0%nat [u "script.py"] false true)
    as (Hsame & _);
    [vm_compute; reflexivity ..|].
  exact Hsame.
Defined.

(** ** Where the claims about the timeout fall short *)


(** C3, as stated, fails.  The process exits by itself at once, with
    status 7, long before the timeout of one second; a descendant holds
    its output pipe, so the first [communicate] is not done at the
    deadline.  [run_cmd] kills the group and returns the status 7 with the
    flag [True]. *)
Lemma exited_process_reported_timed_out :
  Sim.exits_at Sim.orphan = Some 0
  ∧ 0 < 1
  ∧ Sim.exit_status Sim.orphan = 7
  ∧ (run_cmd (host:=Sim.host_of Sim.orphan) 0%nat (InBytes []) (Some 1)
       (u "ascii") None true (Demo.boot [u "sh"])).1
    = Ok (PyBytes (Demo.b "hi" ++ [Byte.x0a]), Some 7, true).
Proof. vm_compute. repeat split. Qed.

(** With no output at all an encoding that does not exist goes unnoticed. *)
Example unknown_encoding_empty_output :
  (run_cmd (host:=Demo.posix) 0%nat (InBytes []) None (u "ascii")
     (Some (u "no-such-encoding")) true (Demo.boot [u "cat"])).1
  = Ok (PyStr [], Some 0, false).
Proof. vm_compute. reflexivity. Qed.
